(** * Z-Image client: a shallow embedding of [client.py], [handler.py] and
      [local_server.py]

    The development follows the Python sources of the repository.

    Definitions:
    - [Base64]      : the base64 codec of the Python standard library, which
                      [handler.py] uses to embed the PNG
                      ([base64.b64encode(..).decode()]) and [client.py] to
                      read it back ([base64.b64decode]);
    - [Base64Check] : boolean checks over all bytes and sextets;
    - [Py]          : the fragment of Python values and exceptions the
                      client manipulates (JSON values, [dict.get], [in],
                      subscripts, truthiness);
    - [Net]         : the outside world (remote service, wall clock,
                      sleeping, standard output) as explicit state with a
                      trace, and the monad of computations over it;
    - [Handler]     : [generate_image], the model call left abstract;
    - [Client]      : [ZImageClient], method by method;
    - [Run]         : vocabulary for runs of the client (the requests it
                      sends, the worlds it leaves, what it observes);
    - [Spec]        : the vocabulary and the statements of the
                      specification;
    - [Examples]    : concrete services and answers;
    - [PyOps]       : [or] and optional integers;
    - [LocalServer] : the two endpoints of [local_server.py], the model
                      call left abstract;
    - [Run2], [Examples2] : further vocabulary and concrete answers.

    Theorems: [Base64Facts], [ClientFacts], [SubmitFacts], then the
    properties of the specification, C1 to C10, then further properties
    of the client, of the handler and of the local server, X1 to X20.

    Time is measured in seconds; the floating point values returned by
    [time.time()] are idealised as rationals. The [while True] loop of
    [get_result] is bounded by a number of turns; [get_result_terminates]
    gives a bound that is always enough. *)

From Stdlib Require Import QArith Lqa.
From Stdlib Require Import Ascii String NArith ZArith List Bool Lia.
From Stdlib.Strings Require Import Byte.
From stdpp Require Import base option gmap strings list.

Set Warnings "-register-all".
Local Open Scope string_scope.
Local Open Scope list_scope.

(* ===================================================================== *)
(** ** The base64 codec of the Python standard library                    *)
(* ===================================================================== *)

Module Base64.

(** The standard alphabet of RFC 4648, section 4, as tabulated by
    [binascii] ([table_b2a_base64]). *)
Definition alphabet : string :=
  "ABCDEFGHIJKLMNOPQRSTUVWXYZabcdefghijklmnopqrstuvwxyz0123456789+/".

Definition BASE64_PAD : ascii := "="%char.

(** [table_b2a_base64[n]], for a sextet [n < 64]. *)
Definition table_b2a (n : N) : ascii :=
  match String.get (N.to_nat n) alphabet with
  | Some c => c
  | None => BASE64_PAD
  end.

Fixpoint index_from (i : N) (c : ascii) (s : string) : option N :=
  match s with
  | EmptyString => None
  | String c' s' => if Ascii.eqb c c' then Some i else index_from (N.succ i) c s'
  end.

(** [table_a2b_base64[c]]: the sextet a character stands for, [None] for a
    character outside the alphabet (the table holds a value [>= 64]
    there). *)
Definition table_a2b (c : ascii) : option N := index_from 0 c alphabet.

(** C's conversion to [unsigned char]. *)
Definition to_uchar (n : N) : byte :=
  match Byte.of_N (n mod 256) with
  | Some b => b
  | None => Byte.x00
  end.

(** *** Encoding: [binascii.b2a_base64(data, newline=False)]

    Three bytes give four sextets; a final group of one or two bytes is
    completed with zero bits and padded with [=]. *)
Fixpoint b2a_base64 (data : list byte) : list ascii :=
  match data with
  | [] => []
  | [b1] =>
      let n1 := Byte.to_N b1 in
      [ table_b2a (N.shiftr n1 2);
        table_b2a (N.shiftl (N.land n1 3) 4);
        BASE64_PAD; BASE64_PAD ]
  | [b1; b2] =>
      let n1 := Byte.to_N b1 in
      let n2 := Byte.to_N b2 in
      [ table_b2a (N.shiftr n1 2);
        table_b2a (N.lor (N.shiftl (N.land n1 3) 4) (N.shiftr n2 4));
        table_b2a (N.shiftl (N.land n2 15) 2);
        BASE64_PAD ]
  | b1 :: b2 :: b3 :: rest =>
      let n1 := Byte.to_N b1 in
      let n2 := Byte.to_N b2 in
      let n3 := Byte.to_N b3 in
      table_b2a (N.shiftr n1 2)
      :: table_b2a (N.lor (N.shiftl (N.land n1 3) 4) (N.shiftr n2 4))
      :: table_b2a (N.lor (N.shiftl (N.land n2 15) 2) (N.shiftr n3 6))
      :: table_b2a (N.land n3 63)
      :: b2a_base64 rest
  end.

(** [base64.b64encode(data).decode()]: the encoded bytes are ASCII, so the
    decoded [str] has the same characters. *)
Definition b64encode (data : list byte) : string :=
  string_of_list_ascii (b2a_base64 data).

(** *** Decoding: [binascii.a2b_base64(data)] in its default, non-strict
    mode, as the machine over the input characters that CPython (3.11 and
    later) runs: characters outside the alphabet are skipped, a complete
    pad sequence ends the data, and an incomplete last group is an
    error. *)
Record a2b_state : Type := mk_a2b {
  quad_pos : N;          (* position inside the current group of four *)
  leftchar : N;          (* bits carried over to the next output byte *)
  pads     : N;          (* consecutive [=] seen since the last sextet *)
  bin_data : list byte   (* output produced so far *)
}.

Definition a2b_init : a2b_state := mk_a2b 0 0 0 [].

Inductive a2b_next : Type :=
  | Continue (st : a2b_state)
  | Done (st : a2b_state).      (* [goto done]: a pad sequence ends the data *)

(** A sextet [v] enters the current group ([switch (quad_pos)]). *)
Definition absorb (st : a2b_state) (v : N) : a2b_state :=
  match quad_pos st with
  | 0%N => mk_a2b 1 v 0 (bin_data st)
  | 1%N =>
      mk_a2b 2 (N.land v 15) 0
        (bin_data st ++ [to_uchar (N.lor (N.shiftl (leftchar st) 2) (N.shiftr v 4))])
  | 2%N =>
      mk_a2b 3 (N.land v 3) 0
        (bin_data st ++ [to_uchar (N.lor (N.shiftl (leftchar st) 4) (N.shiftr v 2))])
  | _ =>
      mk_a2b 0 0 0
        (bin_data st ++ [to_uchar (N.lor (N.shiftl (leftchar st) 6) v)])
  end.

Definition a2b_step (st : a2b_state) (c : ascii) : a2b_next :=
  if Ascii.eqb c BASE64_PAD then
    if (2 <=? quad_pos st)%N then
      (* [quad_pos >= 2 && quad_pos + ++pads >= 4] *)
      let st' := mk_a2b (quad_pos st) (leftchar st) (N.succ (pads st)) (bin_data st) in
      if (4 <=? quad_pos st' + pads st')%N then Done st' else Continue st'
    else Continue st
  else
    match table_a2b c with
    | None => Continue st                  (* not in the alphabet: skipped *)
    | Some v => Continue (absorb st v)
    end.

(** The two failures of [binascii.Error] after the loop. *)
Inductive a2b_error : Type :=
  | InvalidLength        (* one data character more than a multiple of 4 *)
  | IncorrectPadding.

Fixpoint a2b_loop (st : a2b_state) (cs : list ascii) : a2b_error + list byte :=
  match cs with
  | [] =>
      if (quad_pos st =? 0)%N then inr (bin_data st)
      else if (quad_pos st =? 1)%N then inl InvalidLength
      else inl IncorrectPadding
  | c :: cs' =>
      match a2b_step st c with
      | Done st' => inr (bin_data st')
      | Continue st' => a2b_loop st' cs'
      end
  end.

Definition a2b_base64 (cs : list ascii) : a2b_error + list byte :=
  a2b_loop a2b_init cs.

(** [base64.b64decode(s)] on a [str]: the text must be ASCII
    ([_bytes_from_decode_data] raises [ValueError] otherwise), then
    [binascii.a2b_base64] runs. *)
Inductive b64_error : Type :=
  | NonAscii                       (* ValueError *)
  | Binascii (e : a2b_error).      (* binascii.Error *)

Definition is_ascii (c : ascii) : bool := (N_of_ascii c <? 128)%N.

Definition b64decode (s : string) : b64_error + list byte :=
  let cs := list_ascii_of_string s in
  if forallb is_ascii cs then
    match a2b_base64 cs with
    | inl e => inl (Binascii e)
    | inr bs => inr bs
    end
  else inl NonAscii.

End Base64.

(* ===================================================================== *)
(** ** Exhaustive checks on bytes and sextets                             *)
(* ===================================================================== *)

Module Base64Check.
Import Base64.

(** Checking a decidable property on every number below a bound. *)
Definition below (k : nat) : list N := map N.of_nat (seq 0 k).

Definition sextet_ok (v : N) : bool :=
  match table_a2b (table_b2a v) with
  | Some v' => (v' =? v)%N
  | None => false
  end
  && negb (Ascii.eqb (table_b2a v) BASE64_PAD)
  && is_ascii (table_b2a v).

Definition hi_ok (n1 n2 : N) : bool :=
  let s1 := N.shiftr n1 2 in
  let s2 := N.lor (N.shiftl (N.land n1 3) 4) (N.shiftr n2 4) in
  (s1 <? 64)%N && (s2 <? 64)%N
  && (N.lor (N.shiftl s1 2) (N.shiftr s2 4) =? n1)%N
  && (N.land s2 15 =? N.shiftr n2 4)%N.

Definition lo_ok (n2 n3 : N) : bool :=
  let s3 := N.lor (N.shiftl (N.land n2 15) 2) (N.shiftr n3 6) in
  let s4 := N.land n3 63 in
  (s3 <? 64)%N && (s4 <? 64)%N
  && (N.lor (N.shiftl (N.shiftr n2 4) 4) (N.shiftr s3 2) =? n2)%N
  && (N.lor (N.shiftl (N.land s3 3) 6) s4 =? n3)%N.

End Base64Check.

(* ===================================================================== *)
(** ** Python values and exceptions                                       *)
(* ===================================================================== *)

Module Py.

(** What [response.json()] can return: [None], [bool], numbers, [str],
    [list] and [dict] with string keys. *)
Inductive json : Type :=
  | JNull
  | JBool (b : bool)
  | JNum (q : Q)
  | JStr (s : string)
  | JArr (l : list json)
  | JObj (m : gmap string json).

Definition JInt (z : Z) : json := JNum (inject_Z z).

(** The failures of the [requests] calls themselves. *)
Inductive transport_failure : Type :=
  | ConnectionError      (* requests.exceptions.ConnectionError *)
  | Timeout.             (* requests.exceptions.Timeout *)

(** The exception classes that can leave the client. [Exception] and
    [TimeoutError] are the two classes named by [raise] statements of
    [client.py]; the others are raised by the operations it calls. *)
Inductive exc_class : Type :=
  | Exception
  | TimeoutError
  | TypeError
  | AttributeError
  | KeyError
  | ValueError
  | BinasciiError                              (* binascii.Error *)
  | JSONDecodeError
  | UnidentifiedImageError                     (* PIL *)
  | RequestException (f : transport_failure).  (* requests.exceptions *)

(** The text of an f-string: literal pieces and formatted values. *)
Inductive fragment : Type :=
  | Lit (s : string)
  | Fmt (v : json).

Record exn : Type := mk_exn {
  cls : exc_class;
  msg : list fragment     (* [[]] where the text comes from a library *)
}.

(** [s == "..."] for an arbitrary value [s]. *)
Definition eq_str (v : json) (s : string) : bool :=
  match v with
  | JStr s' => String.eqb s' s
  | _ => false
  end.

(** [k in s] for two strings: substring test. *)
Fixpoint substring_of (k s : string) : bool :=
  String.prefix k s ||
  match s with
  | EmptyString => false
  | String _ s' => substring_of k s'
  end.

(** [key in container]. *)
Definition contains (key : string) (container : json) : exn + bool :=
  match container with
  | JObj m => inr (bool_decide (is_Some (m !! key)))
  | JArr l => inr (existsb (fun v => eq_str v key) l)
  | JStr s => inr (substring_of key s)
  | JNull | JBool _ | JNum _ => inl (mk_exn TypeError [])
  end.

(** [container[key]] with a string key. *)
Definition getitem (container : json) (key : string) : exn + json :=
  match container with
  | JObj m =>
      match m !! key with
      | Some v => inr v
      | None => inl (mk_exn KeyError [Lit key])
      end
  | _ => inl (mk_exn TypeError [])
  end.

(** [container.get(key, default)]: only a [dict] has the method. *)
Definition get (container : json) (key : string) (dflt : json) : exn + json :=
  match container with
  | JObj m => inr (default dflt (m !! key))
  | _ => inl (mk_exn AttributeError [])
  end.

(** Truth value of an object ([not x] is its negation). *)
Definition truthy (v : json) : bool :=
  match v with
  | JNull => false
  | JBool b => b
  | JNum q => negb (Qeq_bool q 0)
  | JStr s => negb (String.eqb s "")
  | JArr l => match l with [] => false | _ => true end
  | JObj m => negb (bool_decide (m = ∅))
  end.

(** [base64.b64decode(v)] on an arbitrary value. *)
Definition b64decode (v : json) : exn + list byte :=
  match v with
  | JStr s =>
      match Base64.b64decode s with
      | inr bs => inr bs
      | inl Base64.NonAscii => inl (mk_exn ValueError [])
      | inl (Base64.Binascii _) => inl (mk_exn BinasciiError [])
      end
  | _ => inl (mk_exn TypeError [])
  end.

End Py.

(* ===================================================================== *)
(** ** The outside world                                                  *)
(* ===================================================================== *)

Module Net.
Import Py.

Inductive http_method : Type := GET | POST.

Record request : Type := mk_request {
  meth : http_method;
  url : string;
  req_headers : gmap string string;
  req_json : option json;       (* the [json=] argument *)
  req_timeout : option Z        (* the [timeout=] argument, in seconds *)
}.

Record response : Type := mk_response {
  status_code : Z;
  text : string;
  json_body : option json       (* [None]: the body is not JSON *)
}.

Inductive outcome : Type :=
  | Responded (r : response)
  | Failed (f : transport_failure).

(** One HTTP exchange: how long it took and how it ended. *)
Record exchange : Type := mk_exchange {
  latency : Q;
  result : outcome
}.

(** What the program cannot decide: the answer and duration of its [n]-th
    HTTP call, and which byte strings [PIL] recognises as an image. *)
Record environment : Type := mk_environment {
  respond : nat -> request -> exchange;
  identifiable : list byte -> bool
}.

Inductive event : Type :=
  | EvPrint (t : Q) (line : list fragment)
  | EvHttp (t : Q) (req : request)
  | EvSleep (t : Q) (secs : Q).

Record world : Type := mk_world {
  now : Q;                 (* wall clock, seconds *)
  calls : nat;             (* HTTP calls made so far *)
  trace : list event       (* everything done so far, oldest first *)
}.

Definition is_http (e : event) : bool :=
  match e with EvHttp _ _ => true | _ => false end.

Definition is_sleep (e : event) : bool :=
  match e with EvSleep _ _ => true | _ => false end.

Definition http_calls (evs : list event) : nat := length (filter (fun e => is_http e = true) evs).
Definition sleeps (evs : list event) : nat := length (filter (fun e => is_sleep e = true) evs).

(** *** Computations: a result or an exception, and the world after. *)
Inductive res (A : Type) : Type :=
  | Return (a : A)
  | Raise (e : exn).
Arguments Return {A} a.
Arguments Raise {A} e.

Definition M (A : Type) : Type := world -> res A * world.

Definition ret {A} (a : A) : M A := fun w => (Return a, w).
Definition raise {A} (c : exc_class) (m : list fragment) : M A :=
  fun w => (Raise (mk_exn c m), w).
Definition bind {A B} (m : M A) (k : A -> M B) : M B :=
  fun w =>
    match m w with
    | (Return a, w') => k a w'
    | (Raise e, w') => (Raise e, w')
    end.
Definition lift {A} (x : exn + A) : M A :=
  fun w => match x with inr a => (Return a, w) | inl e => (Raise e, w) end.

(** [try: body  except: handler] with a bare [except], which catches
    every exception. *)
Definition try_except {A} (body : M A) (handler : M A) : M A :=
  fun w =>
    match body w with
    | (Return a, w') => (Return a, w')
    | (Raise _, w') => handler w'
    end.

Notation "'let*' x ':=' m 'in' k" := (bind m (fun x => k))
  (at level 10, x pattern, m at level 100, k at level 200).

Section Effects.
Variable env : environment.

(** [requests.get] / [requests.post]. *)
Definition http (req : request) : M response :=
  fun w =>
    let ex := respond env (calls w) req in
    let w' := mk_world (now w + latency ex) (S (calls w)) (trace w ++ [EvHttp (now w) req]) in
    match result ex with
    | Responded r => (Return r, w')
    | Failed f => (Raise (mk_exn (RequestException f) []), w')
    end.

Definition requests_post (url : string) (payload : json)
    (headers : gmap string string) (timeout : option Z) : M response :=
  http (mk_request POST url headers (Some payload) timeout).

Definition requests_get (url : string) (headers : gmap string string)
    (timeout : option Z) : M response :=
  http (mk_request GET url headers None timeout).

(** [response.json()]. *)
Definition response_json (r : response) : M json :=
  match json_body r with
  | Some v => ret v
  | None => raise JSONDecodeError []
  end.

(** [time.time()]. *)
Definition time_time : M Q := fun w => (Return (now w), w).

(** [time.sleep(secs)]. *)
Definition time_sleep (secs : Q) : M unit :=
  fun w => (Return tt, mk_world (now w + secs) (calls w) (trace w ++ [EvSleep (now w) secs])).

Definition print (line : list fragment) : M unit :=
  fun w => (Return tt, mk_world (now w) (calls w) (trace w ++ [EvPrint (now w) line])).

(** A [PIL] image, known by the bytes it was opened from. *)
Inductive Image : Type := PILImage (data : list byte).

(** [Image.open(BytesIO(data))]. *)
Definition Image_open (data : list byte) : M Image :=
  if identifiable env data then ret (PILImage data)
  else raise UnidentifiedImageError [].

End Effects.

(** [a > b] on the clock. *)
Definition Qgtb (a b : Q) : bool := negb (Qle_bool a b).

End Net.

(* ===================================================================== *)
(** ** [handler.py]                                                       *)
(* ===================================================================== *)

Module Handler.
Import Py.

(** [job["input"]] with the fields of the documented shape, each possibly
    absent; an absent or null [seed] is [None]. *)
Record job_input : Type := mk_job_input {
  in_prompt : option string;
  in_height : option Z;
  in_width : option Z;
  in_num_inference_steps : option Z;
  in_seed : option Z
}.

Section Handler.

(** The model call followed by [image.save(buffered, format="PNG")]: the
    PNG bytes in [buffered], or the text and traceback of the exception
    that the [try] block catches. *)
Variable pipe : string -> Z -> Z -> Z -> option Z -> (string * string) + list byte.

Definition generate_image (job : job_input) : json :=
  let prompt := default "" (in_prompt job) in
  let height := default 1024%Z (in_height job) in
  let width := default 1024%Z (in_width job) in
  let num_inference_steps := default 9%Z (in_num_inference_steps job) in
  let seed := in_seed job in
  if negb (truthy (JStr prompt)) then
    JObj {[ "error" := JStr "No prompt provided" ]}
  else if negb (height mod 8 =? 0)%Z || negb (width mod 8 =? 0)%Z then
    JObj {[ "error" := JStr "Height and width must be multiples of 8" ]}
  else
    match pipe prompt height width num_inference_steps seed with
    | inr buffered =>
        let img_base64 := Base64.b64encode buffered in
        JObj (<[ "image" := JStr img_base64 ]>
             (<[ "format" := JStr "base64" ]>
             (<[ "prompt" := JStr prompt ]>
             (<[ "seed" := match seed with Some z => JInt z | None => JNull end ]>
             (<[ "height" := JInt height ]>
             (<[ "width" := JInt width ]> ∅))))))
    | inl (e, traceback) =>
        JObj (<[ "error" := JStr e ]> (<[ "traceback" := JStr traceback ]> ∅))
    end.

End Handler.
End Handler.

(* ===================================================================== *)
(** ** [client.py]: [ZImageClient]                                        *)
(* ===================================================================== *)

Module Client.
Import Py Net.

Record ZImageClient : Type := mk_client {
  endpoint_id : string;
  api_key : string;
  base_url : string;
  headers : gmap string string
}.

Definition __init__ (endpoint_id api_key : string) : ZImageClient :=
  mk_client endpoint_id api_key
    ("https://api.runpod.ai/v2/" +:+ endpoint_id)
    (<[ "Content-Type" := "application/json" ]>
    (<[ "Authorization" := "Bearer " +:+ api_key ]> ∅)).

(** The request body built by both submissions. *)
Definition payload (prompt : string) (height width num_inference_steps : Z)
    (seed : option Z) : json :=
  JObj {[ "input" :=
    JObj (<[ "prompt" := JStr prompt ]>
         (<[ "height" := JInt height ]>
         (<[ "width" := JInt width ]>
         (<[ "num_inference_steps" := JInt num_inference_steps ]>
         (<[ "seed" := match seed with Some z => JInt z | None => JNull end ]> ∅))))) ]}.

Section Methods.
Variable env : environment.

Definition generate_sync (self : ZImageClient) (prompt : string)
    (height width num_inference_steps : Z) (seed : option Z) (timeout : Z) : M Image :=
  let url := base_url self +:+ "/runsync" in
  let* _ := print [Lit "Sending request to "; Fmt (JStr url)] in
  let* response :=
    requests_post env url (payload prompt height width num_inference_steps seed)
      (headers self) (Some timeout) in
  if negb (status_code response =? 200)%Z then
    raise Exception [Lit "API request failed: "; Fmt (JInt (status_code response));
                     Lit " - "; Fmt (JStr (text response))]
  else
    let* result := response_json response in
    let* result_has_error := lift (contains "error" result) in
    if result_has_error then
      let* err := lift (getitem result "error") in
      raise Exception [Lit "Generation failed: "; Fmt err]
    else
      let* output := lift (get result "output" (JObj ∅)) in
      let* output_has_error := lift (contains "error" output) in
      if output_has_error then
        let* err := lift (getitem output "error") in
        raise Exception [Lit "Generation failed: "; Fmt err]
      else
        let* img_base64 := lift (get output "image" JNull) in
        if negb (truthy img_base64) then
          raise Exception [Lit "No image in response: "; Fmt result]
        else
          let* img_data := lift (b64decode img_base64) in
          Image_open env img_data.

Definition generate_async (self : ZImageClient) (prompt : string)
    (height width num_inference_steps : Z) (seed : option Z) : M json :=
  let url := base_url self +:+ "/run" in
  let* response :=
    requests_post env url (payload prompt height width num_inference_steps seed)
      (headers self) None in
  if negb (status_code response =? 200)%Z then
    raise Exception [Lit "API request failed: "; Fmt (JInt (status_code response));
                     Lit " - "; Fmt (JStr (text response))]
  else
    let* result := response_json response in
    lift (get result "id" JNull).

Definition check_status (self : ZImageClient) (job_id : string) : M json :=
  let url := base_url self +:+ "/status/" +:+ job_id in
  let* response := requests_get env url (headers self) None in
  if negb (status_code response =? 200)%Z then
    raise Exception [Lit "Status check failed: "; Fmt (JInt (status_code response));
                     Lit " - "; Fmt (JStr (text response))]
  else
    response_json response.

(** One turn of the [while True] loop of [get_result]. [Return (Some r)]
    is [return r]; [Return None] falls through to the next turn. *)
Definition get_result_iteration (self : ZImageClient) (job_id : string)
    (wait : bool) (max_wait : Z) (start_time : Q) : M (option (option Image)) :=
  let* status := check_status self job_id in
  let* job_status := lift (get status "status" JNull) in
  if eq_str job_status "COMPLETED" then
    let* output := lift (get status "output" (JObj ∅)) in
    let* output_has_error := lift (contains "error" output) in
    if output_has_error then
      let* err := lift (getitem output "error") in
      raise Exception [Lit "Generation failed: "; Fmt err]
    else
      let* img_base64 := lift (get output "image" JNull) in
      let* img_data := lift (b64decode img_base64) in
      let* image := Image_open env img_data in
      ret (Some (Some image))
  else if eq_str job_status "FAILED" then
    let* error := lift (get status "error" (JStr "Unknown error")) in
    raise Exception [Lit "Job failed: "; Fmt error]
  else if eq_str job_status "IN_QUEUE" || eq_str job_status "IN_PROGRESS" then
    if negb wait then ret (Some None)
    else
      let* t := time_time in
      let elapsed := (t - start_time)%Q in
      if Qgtb elapsed (inject_Z max_wait) then
        raise TimeoutError [Lit "Job did not complete within "; Fmt (JInt max_wait);
                            Lit " seconds"]
      else
        let* _ := time_sleep 1 in
        ret None
  else
    raise Exception [Lit "Unknown job status: "; Fmt job_status].

(** The loop, with a bound on the number of turns; [None] when the bound
    is reached before the loop is left. *)
Fixpoint get_result_loop (fuel : nat) (self : ZImageClient) (job_id : string)
    (wait : bool) (max_wait : Z) (start_time : Q) (w : world)
    : option (res (option Image) * world) :=
  match fuel with
  | O => None
  | S fuel' =>
      match get_result_iteration self job_id wait max_wait start_time w with
      | (Raise e, w') => Some (Raise e, w')
      | (Return (Some r), w') => Some (Return r, w')
      | (Return None, w') =>
          get_result_loop fuel' self job_id wait max_wait start_time w'
      end
  end.

Definition get_result (fuel : nat) (self : ZImageClient) (job_id : string)
    (wait : bool) (max_wait : Z) (w : world) : option (res (option Image) * world) :=
  let start_time := now w in
  get_result_loop fuel self job_id wait max_wait start_time w.

Definition health_check (self : ZImageClient) : M bool :=
  let url := base_url self +:+ "/health" in
  try_except
    (let* response := requests_get env url (headers self) (Some 5%Z) in
     ret (status_code response =? 200)%Z)
    (ret false).

End Methods.
End Client.

(* ===================================================================== *)
(** ** Runs of the client: requests, worlds, observations                 *)
(* ===================================================================== *)

Module Run.
Import Py Net Client.

(** The request sent by [check_status]. *)
Definition status_request (self : ZImageClient) (job_id : string) : request :=
  mk_request GET (base_url self +:+ "/status/" +:+ job_id) (headers self) None None.

(** The requests sent by [generate_sync] and [generate_async]. *)
Definition sync_request (self : ZImageClient) (prompt : string)
    (height width num_inference_steps : Z) (seed : option Z) (timeout : Z) : request :=
  mk_request POST (base_url self +:+ "/runsync") (headers self)
    (Some (payload prompt height width num_inference_steps seed)) (Some timeout).

Definition async_request (self : ZImageClient) (prompt : string)
    (height width num_inference_steps : Z) (seed : option Z) : request :=
  mk_request POST (base_url self +:+ "/run") (headers self)
    (Some (payload prompt height width num_inference_steps seed)) None.

Definition health_request (self : ZImageClient) : request :=
  mk_request GET (base_url self +:+ "/health") (headers self) None (Some 5%Z).

(** The world once the [n]-th HTTP call has been answered. *)
Definition after_http (env : environment) (req : request) (w : world) : world :=
  mk_world (now w + latency (respond env (calls w) req)) (S (calls w))
    (trace w ++ [EvHttp (now w) req]).

Definition after_sleep (secs : Q) (w : world) : world :=
  mk_world (now w + secs) (calls w) (trace w ++ [EvSleep (now w) secs]).

Definition after_print (line : list fragment) (w : world) : world :=
  mk_world (now w) (calls w) (trace w ++ [EvPrint (now w) line]).

(** The value the loop reads as [job_status] when the status query is
    answered with HTTP 200 and a JSON object. *)
Definition observed_status (ex : exchange) : option json :=
  match result ex with
  | Responded r =>
      if (status_code r =? 200)%Z then
        match json_body r with
        | Some (JObj m) => Some (default JNull (m !! "status"))
        | _ => None
        end
      else None
  | Failed _ => None
  end.

Definition is_pending (job_status : json) : bool :=
  eq_str job_status "IN_QUEUE" || eq_str job_status "IN_PROGRESS".

Definition is_known (job_status : json) : bool :=
  eq_str job_status "COMPLETED" || eq_str job_status "FAILED" || is_pending job_status.

Definition pending_observation (ex : exchange) : bool :=
  match observed_status ex with
  | Some job_status => is_pending job_status
  | None => false
  end.

Definition terminal_observation (ex : exchange) : bool :=
  match observed_status ex with
  | Some job_status => negb (is_pending job_status)
  | None => false
  end.

Definition timeout_exn (max_wait : Z) : exn :=
  mk_exn TimeoutError
    [Lit "Job did not complete within "; Fmt (JInt max_wait); Lit " seconds"].

(** A turn leaves the loop: it returns a value or raises something other
    than [TimeoutError]. *)
Definition leaves (r : res (option (option Image))) : Prop :=
  match r with
  | Return (Some _) => True
  | Return None => False
  | Raise e => cls e <> TimeoutError
  end.

(** A computation that does nothing to the world. *)
Definition stateless {A} (m : M A) : Prop := forall w, snd (m w) = w.

Section Turns.
Variable env : environment.
Variable self : ZImageClient.
Variable job_id : string.

(** The world at the start of the next turn, after a pending observation
    that did not time out. *)
Definition next_turn (w : world) : world :=
  after_sleep 1 (after_http env (status_request self job_id) w).

Fixpoint turn (k : nat) (w : world) : world :=
  match k with
  | O => w
  | S k' => turn k' (next_turn w)
  end.

(** The clock when the answer to the query of turn [k] arrives, which is
    when the loop reads it again. *)
Definition arrival (k : nat) (w : world) : Q :=
  now (after_http env (status_request self job_id) (turn k w)).

Definition nonneg_latency : Prop :=
  forall n rq, (0 <= latency (respond env n rq))%Q.

End Turns.

(** The events of a run of the loop whose first query is issued at [t]:
    queries separated by one-second sleeps, each sleep starting at a
    moment [checked] at which the elapsed time was found within
    [max_wait]. *)
Inductive polled (start_time : Q) (max_wait : Z) (rq : request) : Q -> list event -> Prop :=
  | polled_last (t : Q) : polled start_time max_wait rq t [EvHttp t rq]
  | polled_again (t checked : Q) (evs : list event) :
      (checked - start_time <= inject_Z max_wait)%Q ->
      polled start_time max_wait rq (checked + 1)%Q evs ->
      polled start_time max_wait rq t (EvHttp t rq :: EvSleep checked 1 :: evs).

End Run.

(* ===================================================================== *)
(** ** The vocabulary of the specification                                *)
(* ===================================================================== *)

Module Spec.
Import Py Net Client Run.

(** The error taxonomy of the specification (section 7). *)
Inductive ErrorCategory : Type :=
  | ValidationError
  | TransportError
  | RemoteError
  | TimeoutError
  | UnrecognizedStatusError.

(** The request check of the specification (sections 3 and 4.1): the
    prompt is non-empty, height and width are positive multiples of 8. *)
Definition positive_multiple_of_8 (n : Z) : bool :=
  (0 <? n)%Z && (n mod 8 =? 0)%Z.

Definition valid_request (prompt : string) (height width : Z) : bool :=
  negb (String.eqb prompt "")
  && positive_multiple_of_8 height && positive_multiple_of_8 width.

(** The category the specification gives to a failed submission, read off
    the answer it received: a connection failure or a non-success status
    is a transport error; a success status whose body carries an error
    indicator is a remote error. *)
Definition category_of_answer (ex : exchange) : option ErrorCategory :=
  match result ex with
  | Failed _ => Some TransportError
  | Responded r =>
      if negb (status_code r =? 200)%Z then Some TransportError
      else
        match json_body r with
        | Some (JObj m) =>
            if bool_decide (is_Some (m !! "error")) then Some RemoteError else None
        | _ => None
        end
  end.

(** The text of an exception starts with the given words. *)
Definition says (e : exn) (words : string) : bool :=
  match msg e with
  | Lit s :: _ => String.prefix words s
  | _ => false
  end.

Definition exception_of {A} (x : res A * world) : option exn :=
  match fst x with
  | Raise e => Some e
  | Return _ => None
  end.

Definition final_trace {A} (x : option (res A * world)) : list event :=
  match x with
  | Some (_, w') => trace w'
  | None => []
  end.

Definition final_exception {A} (x : option (res A * world)) : option exn :=
  match x with
  | Some (Raise e, _) => Some e
  | _ => None
  end.

(** The statement of the specification that a request with an empty
    prompt, or with a height or width that is not a positive multiple of
    8, is refused by both submissions before any network call. *)
Definition validates_before_network : Prop :=
  forall (env : environment) (self : ZImageClient) (prompt : string)
         (height width steps : Z) (seed : option Z) (timeout : Z) (w : world),
    valid_request prompt height width = false ->
    (exists e, fst (generate_sync env self prompt height width steps seed timeout w) = Raise e)
    /\ http_calls (trace (snd (generate_sync env self prompt height width steps seed timeout w)))
       = http_calls (trace w)
    /\ (exists e, fst (generate_async env self prompt height width steps seed w) = Raise e)
    /\ http_calls (trace (snd (generate_async env self prompt height width steps seed w)))
       = http_calls (trace w).

(** The statement of the specification that the error categories reach
    the caller as distinct kinds: two failed submissions whose answers
    fall into different categories raise different exception classes. *)
Definition kinds_are_distinct : Prop :=
  forall (env1 env2 : environment) (self : ZImageClient) (prompt : string)
         (height width steps : Z) (seed : option Z) (timeout : Z) (w : world)
         (e1 e2 : exn) (c1 c2 : ErrorCategory),
    let rq := sync_request self prompt height width steps seed timeout in
    exception_of (generate_sync env1 self prompt height width steps seed timeout w)
      = Some e1 ->
    category_of_answer (respond env1 (calls w) rq) = Some c1 ->
    exception_of (generate_sync env2 self prompt height width steps seed timeout w)
      = Some e2 ->
    category_of_answer (respond env2 (calls w) rq) = Some c2 ->
    c1 <> c2 -> cls e1 <> cls e2.

(** The statement of the specification about a completed job without an
    image, in its weakest reading: the operation ends with an exception
    that says so. *)
Definition reports_missing_image (outcome : option exn) : Prop :=
  exists e, outcome = Some e /\ says e "No image in response" = true.

(** The statement of the specification that no status query is issued at
    a moment when the elapsed time already exceeds [max_wait]. *)
Definition queries_within_budget : Prop :=
  forall (env : environment) (fuel : nat) (self : ZImageClient) (job_id : string)
         (max_wait : Z) (w : world) (r : res (option Image)) (w' : world)
         (evs : list event) (t : Q) (rq : request),
    get_result env fuel self job_id true max_wait w = Some (r, w') ->
    trace w' = trace w ++ evs ->
    In (EvHttp t rq) evs ->
    (t - now w <= inject_Z max_wait)%Q.

(** The statement of the specification that the waiting poll loop raises
    [TimeoutError] if the elapsed time exceeds [max_wait] while the
    observed status remains pending. It is read on a status query that is
    not the first of the run: the loop queries again only after a pending
    observation, so at the moment such a query is issued every status
    observed so far is pending. *)
Definition timeout_once_over_budget : Prop :=
  forall (env : environment) (fuel : nat) (self : ZImageClient) (job_id : string)
         (max_wait : Z) (w : world) (r : res (option Image)) (w' : world)
         (earlier later : list event) (t : Q) (rq : request),
    get_result env fuel self job_id true max_wait w = Some (r, w') ->
    trace w' = trace w ++ earlier ++ EvHttp t rq :: later ->
    earlier <> [] ->
    (inject_Z max_wait < t - now w)%Q ->
    exists e, r = Raise e /\ cls e = Py.TimeoutError.

End Spec.

(* ===================================================================== *)
(** ** Concrete clients, services and answers                             *)
(* ===================================================================== *)

Module Examples.
Import Py Net Client.

Definition client0 : ZImageClient := __init__ "ep-1" "secret".

Definition world0 : world := mk_world 0 0 [].

(** The eight bytes every PNG file starts with. *)
Definition png_signature : list byte :=
  [Byte.x89; Byte.x50; Byte.x4e; Byte.x47; Byte.x0d; Byte.x0a; Byte.x1a; Byte.x0a].

(** An HTTP 200 answer with a JSON body, received after [secs] seconds. *)
Definition answer (secs : Q) (body : json) : exchange :=
  mk_exchange secs (Responded (mk_response 200 "" (Some body))).

Definition status_body (status : string) : json :=
  JObj {[ "status" := JStr status ]}.

(** A service that gives the same answer to every call, and a [PIL] that
    accepts every byte string. *)
Definition always (ex : exchange) : environment :=
  mk_environment (fun _ _ => ex) (fun _ => true).

(** A service that follows a script, then keeps giving the last answer. *)
Definition scripted (exs : list exchange) (last : exchange) : environment :=
  mk_environment (fun n _ => nth n exs last) (fun _ => true).

Definition image_body : json :=
  JObj (<[ "id" := JStr "job-1" ]>
       (<[ "status" := JStr "COMPLETED" ]>
       (<[ "output" := JObj {[ "image" := JStr (Base64.b64encode png_signature) ]} ]> ∅))).

Definition completed_without_image : json :=
  JObj (<[ "status" := JStr "COMPLETED" ]> (<[ "output" := JObj ∅ ]> ∅)).

Definition server_error : exchange :=
  mk_exchange 0 (Responded (mk_response 500 "Internal Server Error" None)).

Definition error_body : json := JObj {[ "error" := JStr "out of memory" ]}.

End Examples.

(* ===================================================================== *)
(** ** Further Python operations                                          *)
(* ===================================================================== *)

Module PyOps.
Import Py.

(** [a or b]: [a] when it is true, [b] otherwise. *)
Definition or_else (a b : json) : json := if truthy a then a else b.

(** An [Optional[int]] as a value. *)
Definition of_optional_int (seed : option Z) : json :=
  match seed with
  | Some z => JInt z
  | None => JNull
  end.

End PyOps.

(* ===================================================================== *)
(** ** [local_server.py]                                                  *)
(* ===================================================================== *)

Module LocalServer.
Import Py PyOps.

(** The request model, as the endpoints receive it: the framework has
    checked the types and filled in the defaults. *)
Record GenerationRequest : Type := mk_GenerationRequest {
  prompt : string;
  height : Z;
  width : Z;
  num_inference_steps : Z;
  seed : option Z
}.

(** A request body that gives the prompt only. *)
Definition prompt_only (prompt : string) : GenerationRequest :=
  mk_GenerationRequest prompt 1024 1024 9 None.

Record GenerationResponse : Type := mk_GenerationResponse {
  image : string;
  format : string;
  response_prompt : string;
  response_seed : option Z;
  response_height : Z;
  response_width : Z
}.

(** The [Response] of the download endpoint. *)
Record FileResponse : Type := mk_FileResponse {
  content : list byte;
  media_type : string;
  response_headers : gmap string (list fragment)
}.

(** What the body of an endpoint can raise: an [HTTPException], or
    whatever the model call raises, known by its text. *)
Inductive raised : Type :=
  | HTTPException (status_code : Z) (detail : string)
  | PipelineError (text : string).

(** The JSON the framework sends for a [GenerationResponse]. *)
Definition to_json (r : GenerationResponse) : json :=
  JObj (<[ "image" := JStr (image r) ]>
       (<[ "format" := JStr (format r) ]>
       (<[ "prompt" := JStr (response_prompt r) ]>
       (<[ "seed" := of_optional_int (response_seed r) ]>
       (<[ "height" := JInt (response_height r) ]>
       (<[ "width" := JInt (response_width r) ]> ∅)))))).

Section Endpoints.

(** The model call followed by [image.save(buffered, format="PNG")], as
    in the handler. *)
Variable pipe : string -> Z -> Z -> Z -> option Z -> (string * string) + list byte.

(** [str(e)] for an [HTTPException]; its text depends on the version of
    the framework. *)
Variable str_HTTPException : Z -> string -> string.

Definition str (e : raised) : string :=
  match e with
  | HTTPException status_code detail => str_HTTPException status_code detail
  | PipelineError text => text
  end.

(** The [try] block of [generate_image]. *)
Definition generate_image_try (request : GenerationRequest) : raised + GenerationResponse :=
  if negb (height request mod 8 =? 0)%Z || negb (width request mod 8 =? 0)%Z then
    inl (HTTPException 400 "Height and width must be multiples of 8")
  else
    match pipe (prompt request) (height request) (width request)
               (num_inference_steps request) (seed request) with
    | inl (text, _) => inl (PipelineError text)
    | inr buffered =>
        let img_base64 := Base64.b64encode buffered in
        inr (mk_GenerationResponse img_base64 "base64" (prompt request) (seed request)
               (height request) (width request))
    end.

(** [POST /generate]: [except Exception as e] catches what the [try]
    block raises, the [HTTPException] of the dimension check included. *)
Definition generate_image (request : GenerationRequest) : raised + GenerationResponse :=
  match generate_image_try request with
  | inr response => inr response
  | inl e => inl (HTTPException 500 (str e))
  end.

(** The [try] block of [generate_image_url]. *)
Definition generate_image_url_try (request : GenerationRequest) : raised + FileResponse :=
  if negb (height request mod 8 =? 0)%Z || negb (width request mod 8 =? 0)%Z then
    inl (HTTPException 400 "Height and width must be multiples of 8")
  else
    match pipe (prompt request) (height request) (width request)
               (num_inference_steps request) (seed request) with
    | inl (text, _) => inl (PipelineError text)
    | inr buffered =>
        inr (mk_FileResponse buffered "image/png"
               {[ "Content-Disposition" :=
                    [Lit "attachment; filename=generated_";
                     Fmt (or_else (of_optional_int (seed request)) (JStr "random"));
                     Lit ".png"] ]})
    end.

(** [POST /generate/url]. *)
Definition generate_image_url (request : GenerationRequest) : raised + FileResponse :=
  match generate_image_url_try request with
  | inr response => inr response
  | inl e => inl (HTTPException 500 (str e))
  end.

End Endpoints.
End LocalServer.

(* ===================================================================== *)
(** ** Further vocabulary for runs of the client                          *)
(* ===================================================================== *)

Module Run2.
Import Py Net Client Run.

(** An HTTP call that goes to the endpoint of the client with its
    credentials. *)
Definition authorised (endpoint_id api_key : string) (rq : request) : Prop :=
  String.prefix ("https://api.runpod.ai/v2/" +:+ endpoint_id) (url rq) = true
  /\ req_headers rq !! "Authorization" = Some ("Bearer " +:+ api_key)
  /\ req_headers rq !! "Content-Type" = Some "application/json".

Definition all_authorised (endpoint_id api_key : string) (evs : list event) : Prop :=
  forall t rq, In (EvHttp t rq) evs -> authorised endpoint_id api_key rq.

(** The answer to a status query: HTTP 200 and a JSON object. *)
Definition answered_with (ex : exchange) (m : gmap string json) : Prop :=
  exists r, result ex = Responded r /\ status_code r = 200%Z /\ json_body r = Some (JObj m).

End Run2.

(* ===================================================================== *)
(** ** Further concrete answers                                           *)
(* ===================================================================== *)

Module Examples2.
Import Py Net Client.

(** An output that reports an error and carries an image all the same. *)
Definition error_and_image : gmap string json :=
  <[ "error" := JStr "CUDA out of memory" ]>
  (<[ "image" := JStr (Base64.b64encode Examples.png_signature) ]> ∅).

Definition completed_with_error : json :=
  JObj (<[ "status" := JStr "COMPLETED" ]> (<[ "output" := JObj error_and_image ]> ∅)).

Definition connection_refused : exchange := mk_exchange 0 (Failed ConnectionError).

Definition no_content : exchange :=
  mk_exchange 0 (Responded (mk_response 204 "" None)).

(** A PNG file of one grey pixel: signature, [IHDR], [IDAT], [IEND]. *)
Definition one_pixel_png : list byte :=
  [Byte.x89; Byte.x50; Byte.x4e; Byte.x47; Byte.x0d; Byte.x0a; Byte.x1a; Byte.x0a;
   Byte.x00; Byte.x00; Byte.x00; Byte.x0d; Byte.x49; Byte.x48; Byte.x44; Byte.x52;
   Byte.x00; Byte.x00; Byte.x00; Byte.x01; Byte.x00; Byte.x00; Byte.x00; Byte.x01;
   Byte.x08; Byte.x00; Byte.x00; Byte.x00; Byte.x00; Byte.x3a; Byte.x7e; Byte.x9b;
   Byte.x55; Byte.x00; Byte.x00; Byte.x00; Byte.x0a; Byte.x49; Byte.x44; Byte.x41;
   Byte.x54; Byte.x78; Byte.xda; Byte.x63; Byte.x60; Byte.x00; Byte.x00; Byte.x00;
   Byte.x02; Byte.x00; Byte.x01; Byte.xe5; Byte.x27; Byte.xde; Byte.xfc; Byte.x00;
   Byte.x00; Byte.x00; Byte.x00; Byte.x49; Byte.x45; Byte.x4e; Byte.x44; Byte.xae;
   Byte.x42; Byte.x60; Byte.x82].

Definition completed_png : json :=
  JObj (<[ "status" := JStr "COMPLETED" ]>
       (<[ "output" := JObj {[ "image" := JStr (Base64.b64encode one_pixel_png) ]} ]> ∅)).

(** A service that takes one second for each answer: the job is queued,
    then in progress, then completed. *)
Definition completes_late : environment :=
  Examples.scripted
    [Examples.answer 1 (Examples.status_body "IN_QUEUE");
     Examples.answer 1 (Examples.status_body "IN_PROGRESS")]
    (Examples.answer 1 completed_png).

(** A model call that draws every image as the same bytes. *)
Definition pipe_png (prompt : string) (height width steps : Z) (seed : option Z)
    : (string * string) + list byte :=
  inr Examples.png_signature.

(** A model call that always fails. *)
Definition pipe_fails (prompt : string) (height width steps : Z) (seed : option Z)
    : (string * string) + list byte :=
  inl ("CUDA out of memory", "Traceback (most recent call last): ...").

(** The service's answers when it wraps what the handler returns. *)
Definition runsync_answer (payload : json) : exchange :=
  Examples.answer 0 (JObj {[ "output" := payload ]}).

Definition completed_answer (payload : json) : exchange :=
  Examples.answer 0 (JObj (<[ "status" := JStr "COMPLETED" ]> (<[ "output" := payload ]> ∅))).

(** The text of [str(e)] for an [HTTPException] in recent versions of the
    framework. *)
Definition str_status_detail (status_code : Z) (detail : string) : string :=
  (if (status_code =? 400)%Z then "400" else "500") +:+ ": " +:+ detail.

End Examples2.

(* ===================================================================== *)
(** ** Facts about the codec                                              *)
(* ===================================================================== *)

Example b64encode_Man :
  Base64.b64encode [Byte.x4d; Byte.x61; Byte.x6e] = "TWFu".
Proof. reflexivity. Qed.

Example b64encode_Ma :
  Base64.b64encode [Byte.x4d; Byte.x61] = "TWE=".
Proof. reflexivity. Qed.

Example b64decode_skips_newline :
  Base64.b64decode (String "T" (String "W" (String "010" "E="))) = inr [Byte.x4d; Byte.x61].
Proof. reflexivity. Qed.

Example b64decode_bad_padding :
  Base64.b64decode "TWE" = inl (Base64.Binascii Base64.IncorrectPadding).
Proof. reflexivity. Qed.

Module Base64Facts.
Import Base64 Base64Check.

Lemma below_spec (k : nat) (n : N) : (n < N.of_nat k)%N -> In n (below k).
Proof.
  intros Hn. unfold below. apply in_map_iff.
  exists (N.to_nat n). split; [apply N2Nat.id|].
  apply in_seq. lia.
Qed.

Lemma forallb_below (P : N -> bool) (k : nat) :
  forallb P (below k) = true -> forall n, (n < N.of_nat k)%N -> P n = true.
Proof.
  intros Hall n Hn. rewrite forallb_forall in Hall.
  apply Hall, below_spec, Hn.
Qed.

Lemma to_N_lt (b : byte) : (Byte.to_N b < N.of_nat 256)%N.
Proof. pose proof (Byte.to_N_bounded b). lia. Qed.

Lemma to_uchar_to_N (b : byte) : to_uchar (Byte.to_N b) = b.
Proof.
  unfold to_uchar. rewrite N.mod_small by (pose proof (Byte.to_N_bounded b); lia).
  now rewrite Byte.of_to_N.
Qed.

(** *** The two tables are inverse on sextets *)

Lemma sextet_ok_all : forallb sextet_ok (below 64) = true.
Proof. vm_compute. reflexivity. Qed.

Lemma table_a2b_b2a (v : N) : (v < 64)%N -> table_a2b (table_b2a v) = Some v.
Proof.
  intros Hv. pose proof (forallb_below _ _ sextet_ok_all v Hv) as H.
  unfold sextet_ok in H. apply andb_prop in H as [H _]. apply andb_prop in H as [H _].
  destruct (table_a2b (table_b2a v)) as [v'|]; [|discriminate].
  apply N.eqb_eq in H. now subst.
Qed.

Lemma table_b2a_not_pad (v : N) : (v < 64)%N -> Ascii.eqb (table_b2a v) BASE64_PAD = false.
Proof.
  intros Hv. pose proof (forallb_below _ _ sextet_ok_all v Hv) as H.
  unfold sextet_ok in H. apply andb_prop in H as [H _]. apply andb_prop in H as [_ H].
  now apply negb_true_iff in H.
Qed.

Lemma table_b2a_ascii (v : N) : (v < 64)%N -> is_ascii (table_b2a v) = true.
Proof.
  intros Hv. pose proof (forallb_below _ _ sextet_ok_all v Hv) as H.
  unfold sextet_ok in H. now apply andb_prop in H as [_ H].
Qed.

Lemma a2b_step_sextet (st : a2b_state) (v : N) :
  (v < 64)%N -> a2b_step st (table_b2a v) = Continue (absorb st v).
Proof.
  intros Hv. unfold a2b_step.
  now rewrite (table_b2a_not_pad v Hv), (table_a2b_b2a v Hv).
Qed.

(** *** Splitting bytes into sextets and back

    Each identity involves at most two bytes, so it is checked on all of
    them. *)

Lemma hi_ok_all : forallb (fun n1 => forallb (hi_ok n1) (below 256)) (below 256) = true.
Proof. vm_compute. reflexivity. Qed.

Lemma lo_ok_all : forallb (fun n2 => forallb (lo_ok n2) (below 256)) (below 256) = true.
Proof. vm_compute. reflexivity. Qed.

Lemma hi_spec (b1 b2 : byte) :
  let n1 := Byte.to_N b1 in
  let n2 := Byte.to_N b2 in
  let s1 := N.shiftr n1 2 in
  let s2 := N.lor (N.shiftl (N.land n1 3) 4) (N.shiftr n2 4) in
  (s1 < 64)%N /\ (s2 < 64)%N
  /\ N.lor (N.shiftl s1 2) (N.shiftr s2 4) = n1
  /\ N.land s2 15 = N.shiftr n2 4.
Proof.
  intros n1 n2 s1 s2.
  pose proof (forallb_below _ _ hi_ok_all n1 (to_N_lt b1)) as H.
  cbv beta in H.
  pose proof (forallb_below _ _ H n2 (to_N_lt b2)) as H2.
  unfold hi_ok in H2. fold s1 s2 in H2.
  repeat (apply andb_prop in H2 as [H2 ?]).
  repeat split; try (now apply N.ltb_lt); now apply N.eqb_eq.
Qed.

Lemma lo_spec (b2 b3 : byte) :
  let n2 := Byte.to_N b2 in
  let n3 := Byte.to_N b3 in
  let s3 := N.lor (N.shiftl (N.land n2 15) 2) (N.shiftr n3 6) in
  let s4 := N.land n3 63 in
  (s3 < 64)%N /\ (s4 < 64)%N
  /\ N.lor (N.shiftl (N.shiftr n2 4) 4) (N.shiftr s3 2) = n2
  /\ N.lor (N.shiftl (N.land s3 3) 6) s4 = n3.
Proof.
  intros n2 n3 s3 s4.
  pose proof (forallb_below _ _ lo_ok_all n2 (to_N_lt b2)) as H.
  cbv beta in H.
  pose proof (forallb_below _ _ H n3 (to_N_lt b3)) as H3.
  unfold lo_ok in H3. fold s3 s4 in H3.
  repeat (apply andb_prop in H3 as [H3 ?]).
  repeat split; try (now apply N.ltb_lt); now apply N.eqb_eq.
Qed.

(** *** Decoding what the encoder wrote *)

Lemma a2b_loop_sextet (st : a2b_state) (v : N) (cs : list ascii) :
  (v < 64)%N -> a2b_loop st (table_b2a v :: cs) = a2b_loop (absorb st v) cs.
Proof. intros Hv. cbn [a2b_loop]. now rewrite a2b_step_sextet. Qed.

Lemma a2b_loop_group (b1 b2 b3 : byte) (cs : list ascii) (out : list byte) :
  let n1 := Byte.to_N b1 in
  let n2 := Byte.to_N b2 in
  let n3 := Byte.to_N b3 in
  a2b_loop (mk_a2b 0 0 0 out)
    (table_b2a (N.shiftr n1 2)
     :: table_b2a (N.lor (N.shiftl (N.land n1 3) 4) (N.shiftr n2 4))
     :: table_b2a (N.lor (N.shiftl (N.land n2 15) 2) (N.shiftr n3 6))
     :: table_b2a (N.land n3 63) :: cs)
  = a2b_loop (mk_a2b 0 0 0 (out ++ [b1; b2; b3])) cs.
Proof.
  intros n1 n2 n3.
  destruct (hi_spec b1 b2) as (Hs1 & Hs2 & Hb1 & Hcarry2).
  destruct (lo_spec b2 b3) as (Hs3 & Hs4 & Hb2 & Hb3).
  fold n1 n2 in Hs1, Hs2, Hb1, Hcarry2. fold n2 n3 in Hs3, Hs4, Hb2, Hb3.
  rewrite !a2b_loop_sextet by assumption.
  unfold absorb; cbn [quad_pos leftchar bin_data].
  rewrite Hb1, Hcarry2, Hb2, Hb3.
  unfold n1, n2, n3. rewrite !to_uchar_to_N.
  now rewrite <- !app_assoc.
Qed.

Lemma a2b_loop_last1 (b1 : byte) (out : list byte) :
  let n1 := Byte.to_N b1 in
  a2b_loop (mk_a2b 0 0 0 out)
    [table_b2a (N.shiftr n1 2); table_b2a (N.shiftl (N.land n1 3) 4);
     BASE64_PAD; BASE64_PAD]
  = inr (out ++ [b1]).
Proof.
  intros n1.
  destruct (hi_spec b1 Byte.x00) as (Hs1 & Hs2 & Hb1 & _).
  change (Byte.to_N Byte.x00) with 0%N in Hs2, Hb1.
  change (N.shiftr 0 4) with 0%N in Hs2, Hb1. rewrite N.lor_0_r in Hs2, Hb1.
  fold n1 in Hs1, Hs2, Hb1.
  rewrite !a2b_loop_sextet by assumption.
  unfold absorb; cbn [quad_pos leftchar bin_data].
  rewrite Hb1. unfold n1. rewrite to_uchar_to_N. reflexivity.
Qed.

Lemma a2b_loop_last2 (b1 b2 : byte) (out : list byte) :
  let n1 := Byte.to_N b1 in
  let n2 := Byte.to_N b2 in
  a2b_loop (mk_a2b 0 0 0 out)
    [table_b2a (N.shiftr n1 2);
     table_b2a (N.lor (N.shiftl (N.land n1 3) 4) (N.shiftr n2 4));
     table_b2a (N.shiftl (N.land n2 15) 2);
     BASE64_PAD]
  = inr (out ++ [b1; b2]).
Proof.
  intros n1 n2.
  destruct (hi_spec b1 b2) as (Hs1 & Hs2 & Hb1 & Hcarry2).
  destruct (lo_spec b2 Byte.x00) as (Hs3 & _ & Hb2 & _).
  change (Byte.to_N Byte.x00) with 0%N in Hs3, Hb2.
  change (N.shiftr 0 6) with 0%N in Hs3, Hb2. rewrite N.lor_0_r in Hs3, Hb2.
  fold n1 n2 in Hs1, Hs2, Hb1, Hcarry2. fold n2 in Hs3, Hb2.
  rewrite !a2b_loop_sextet by assumption.
  unfold absorb; cbn [quad_pos leftchar bin_data].
  rewrite Hb1, Hcarry2, Hb2. unfold n1, n2. rewrite !to_uchar_to_N.
  cbn. now rewrite <- app_assoc.
Qed.

(** Induction on a byte string three bytes at a time, as the encoder
    consumes it. *)
Lemma list_ind3 {A : Type} (P : list A -> Prop) :
  P [] -> (forall a, P [a]) -> (forall a b, P [a; b]) ->
  (forall a b c l, P l -> P (a :: b :: c :: l)) ->
  forall l, P l.
Proof.
  intros H0 H1 H2 H3.
  assert (forall l, P l /\ (forall a, P (a :: l)) /\ (forall a b, P (a :: b :: l))) as H.
  { induction l as [|x l (IH0 & IH1 & IH2)]; [now auto|].
    split; [apply IH1|]. split; [intros a; apply IH2|]. intros a b. now apply H3. }
  intros l. apply H.
Qed.

Lemma a2b_loop_b2a (data out : list byte) :
  a2b_loop (mk_a2b 0 0 0 out) (b2a_base64 data) = inr (out ++ data).
Proof.
  revert out. induction data as [|b1|b1 b2|b1 b2 b3 rest IH] using list_ind3; intros out.
  - cbn. now rewrite app_nil_r.
  - apply a2b_loop_last1.
  - apply a2b_loop_last2.
  - cbn [b2a_base64]. rewrite a2b_loop_group, IH. now rewrite <- app_assoc.
Qed.

Lemma b2a_base64_ascii (data : list byte) : forallb is_ascii (b2a_base64 data) = true.
Proof.
  induction data as [|b1|b1 b2|b1 b2 b3 rest IH] using list_ind3.
  - reflexivity.
  - destruct (hi_spec b1 Byte.x00) as (Hs1 & Hs2 & _).
    change (Byte.to_N Byte.x00) with 0%N in Hs2.
    change (N.shiftr 0 4) with 0%N in Hs2. rewrite N.lor_0_r in Hs2.
    cbn [b2a_base64 forallb]. now rewrite !table_b2a_ascii.
  - destruct (hi_spec b1 b2) as (Hs1 & Hs2 & _).
    destruct (lo_spec b2 Byte.x00) as (Hs3 & _).
    change (Byte.to_N Byte.x00) with 0%N in Hs3.
    change (N.shiftr 0 6) with 0%N in Hs3. rewrite N.lor_0_r in Hs3.
    cbn [b2a_base64 forallb]. now rewrite !table_b2a_ascii.
  - destruct (hi_spec b1 b2) as (Hs1 & Hs2 & _).
    destruct (lo_spec b2 b3) as (Hs3 & Hs4 & _).
    cbn [b2a_base64 forallb]. rewrite !table_b2a_ascii by assumption. exact IH.
Qed.

Lemma b64decode_encoded (data : list byte) :
  b64decode (b64encode data) = inr data.
Proof.
  unfold b64decode, b64encode, a2b_base64, a2b_init.
  rewrite list_ascii_of_string_of_list_ascii, b2a_base64_ascii.
  now rewrite a2b_loop_b2a.
Qed.

End Base64Facts.

(* ===================================================================== *)
(** ** Facts about the client                                             *)
(* ===================================================================== *)

Module ClientFacts.
Import Py Net Client Run.

(** Counting the queries and the sleeps of a trace. *)
Lemma http_calls_app (evs evs' : list event) :
  http_calls (evs ++ evs') = (http_calls evs + http_calls evs')%nat.
Proof. unfold http_calls. now rewrite filter_app, length_app. Qed.

Lemma sleeps_app (evs evs' : list event) :
  sleeps (evs ++ evs') = (sleeps evs + sleeps evs')%nat.
Proof. unfold sleeps. now rewrite filter_app, length_app. Qed.

Lemma http_calls_query (evs : list event) (t : Q) (rq : request) :
  http_calls (evs ++ [EvHttp t rq]) = S (http_calls evs).
Proof. rewrite http_calls_app. change (http_calls [EvHttp t rq]) with 1%nat. lia. Qed.

Lemma sleeps_query (evs : list event) (t : Q) (rq : request) :
  sleeps (evs ++ [EvHttp t rq]) = sleeps evs.
Proof. rewrite sleeps_app. change (sleeps [EvHttp t rq]) with 0%nat. lia. Qed.

Section Loop.
Variable env : environment.
Variable self : ZImageClient.
Variable job_id : string.

Lemma http_eq (req : request) (w : world) :
  http env req w =
    (match result (respond env (calls w) req) with
     | Responded r => Return r
     | Failed f => Raise (mk_exn (RequestException f) [])
     end, after_http env req w).
Proof. unfold http, after_http. now destruct (result _). Qed.

Lemma check_status_eq (w : world) :
  check_status env self job_id w =
    (match result (respond env (calls w) (status_request self job_id)) with
     | Responded r =>
         if (status_code r =? 200)%Z then
           match json_body r with
           | Some v => Return v
           | None => Raise (mk_exn JSONDecodeError [])
           end
         else
           Raise (mk_exn Exception
                    [Lit "Status check failed: "; Fmt (JInt (status_code r));
                     Lit " - "; Fmt (JStr (text r))])
     | Failed f => Raise (mk_exn (RequestException f) [])
     end, after_http env (status_request self job_id) w).
Proof.
  unfold check_status, requests_get, bind.
  change (mk_request GET _ _ None None) with (status_request self job_id).
  rewrite http_eq.
  destruct (result _) as [r|f]; [|reflexivity].
  destruct (status_code r =? 200)%Z; cbn; [|reflexivity].
  unfold response_json. now destruct (json_body r).
Qed.

Lemma check_status_observed (w : world) (job_status : json) :
  observed_status (respond env (calls w) (status_request self job_id)) = Some job_status ->
  exists m, check_status env self job_id w
              = (Return (JObj m), after_http env (status_request self job_id) w)
            /\ default JNull (m !! "status") = job_status.
Proof.
  rewrite check_status_eq. unfold observed_status.
  destruct (result _) as [r|f]; [|discriminate].
  destruct (status_code r =? 200)%Z; [|discriminate].
  destruct (json_body r) as [[| | | | |m]|]; try discriminate.
  intros [= <-]. now exists m.
Qed.

Lemma iteration_pending (wait : bool) (max_wait : Z) (start_time : Q) (w : world)
    (job_status : json) :
  observed_status (respond env (calls w) (status_request self job_id)) = Some job_status ->
  is_pending job_status = true ->
  get_result_iteration env self job_id wait max_wait start_time w =
    let w1 := after_http env (status_request self job_id) w in
    if negb wait then (Return (Some None), w1)
    else if Qgtb (now w1 - start_time) (inject_Z max_wait)
         then (Raise (timeout_exn max_wait), w1)
         else (Return None, after_sleep 1 w1).
Proof.
  intros Hobs Hpend. destruct (check_status_observed w job_status Hobs) as (m & Hcs & Hm).
  unfold get_result_iteration, bind. rewrite Hcs. cbn [lift get]. rewrite Hm.
  unfold is_pending in Hpend.
  assert (eq_str job_status "COMPLETED" = false) as ->.
  { destruct job_status; try reflexivity. cbn in *.
    destruct (String.eqb_spec s "COMPLETED"); [subst; discriminate|reflexivity]. }
  assert (eq_str job_status "FAILED" = false) as ->.
  { destruct job_status; try reflexivity. cbn in *.
    destruct (String.eqb_spec s "FAILED"); [subst; discriminate|reflexivity]. }
  rewrite Hpend. cbn zeta.
  destruct wait; cbn [negb]; [|reflexivity].
  unfold time_time. cbn beta iota.
  destruct (Qgtb _ _); reflexivity.
Qed.

Lemma iteration_unknown (wait : bool) (max_wait : Z) (start_time : Q) (w : world)
    (job_status : json) :
  observed_status (respond env (calls w) (status_request self job_id)) = Some job_status ->
  is_known job_status = false ->
  get_result_iteration env self job_id wait max_wait start_time w =
    (Raise (mk_exn Exception [Lit "Unknown job status: "; Fmt job_status]),
     after_http env (status_request self job_id) w).
Proof.
  intros Hobs Hk. destruct (check_status_observed w job_status Hobs) as (m & Hcs & Hm).
  unfold get_result_iteration, bind. rewrite Hcs. cbn [lift get]. rewrite Hm.
  unfold is_known, is_pending in Hk.
  apply orb_false_iff in Hk as [Hk Hp]. apply orb_false_iff in Hk as [Hc Hf].
  now rewrite Hc, Hf, Hp.
Qed.

Lemma iteration_failed (wait : bool) (max_wait : Z) (start_time : Q) (w : world)
    (r : response) (m : gmap string json) :
  result (respond env (calls w) (status_request self job_id)) = Responded r ->
  status_code r = 200%Z -> json_body r = Some (JObj m) ->
  m !! "status" = Some (JStr "FAILED") ->
  get_result_iteration env self job_id wait max_wait start_time w =
    (Raise (mk_exn Exception
              [Lit "Job failed: "; Fmt (default (JStr "Unknown error") (m !! "error"))]),
     after_http env (status_request self job_id) w).
Proof.
  intros Hr Hc Hj Hs. unfold get_result_iteration, bind.
  rewrite check_status_eq, Hr, Hc, Hj. cbn [lift get Z.eqb Pos.eqb]. rewrite Hs.
  reflexivity.
Qed.

(** The status query is answered, but not with a pending status: the turn
    leaves the loop right after the query. *)
Lemma iteration_terminal (wait : bool) (max_wait : Z) (start_time : Q) (w : world)
    (job_status : json) :
  observed_status (respond env (calls w) (status_request self job_id)) = Some job_status ->
  is_pending job_status = false ->
  exists r, get_result_iteration env self job_id wait max_wait start_time w
              = (r, after_http env (status_request self job_id) w)
            /\ leaves r.
Proof.
  intros Hobs Hp. destruct (check_status_observed w job_status Hobs) as (m & Hcs & Hm).
  unfold get_result_iteration, bind. rewrite Hcs. cbn [lift get]. rewrite Hm.
  unfold is_pending in Hp. rewrite Hp.
  destruct (eq_str job_status "COMPLETED").
  - set (output := default (JObj ∅) (m !! "output")).
    destruct (contains "error" output) as [e|[|]] eqn:He; cbn [lift].
    + eexists; split; [reflexivity|].
      destruct output; cbn in He; inversion He; now cbn.
    + destruct (getitem output "error") as [e|v] eqn:Hg; cbn [lift raise];
        (eexists; split; [reflexivity|]); cbn; [|discriminate].
      destruct output as [| | | | |mo]; cbn in Hg; try (inversion Hg; now cbn).
      destruct (mo !! "error"); inversion Hg; now cbn.
    + destruct (get output "image" JNull) as [e|img] eqn:Hg; cbn [lift].
      { eexists; split; [reflexivity|].
        destruct output; cbn in Hg; inversion Hg; now cbn. }
      destruct (b64decode img) as [e|data] eqn:Hd; cbn [lift].
      { eexists; split; [reflexivity|]. unfold b64decode in Hd.
        destruct img; try (inversion Hd; now cbn).
        destruct (Base64.b64decode s) as [[|]|]; inversion Hd; now cbn. }
      unfold Image_open. destruct (identifiable env data); cbn [ret raise];
        (eexists; split; [reflexivity|]); now cbn.
  - destruct (eq_str job_status "FAILED"); cbn [lift raise];
      (eexists; split; [reflexivity|]); cbn; discriminate.
Qed.

(** The status query is not answered with HTTP 200 and a JSON object: the
    turn env self job_id raises right after the query. *)
Lemma iteration_unanswered (wait : bool) (max_wait : Z) (start_time : Q) (w : world) :
  observed_status (respond env (calls w) (status_request self job_id)) = None ->
  exists e, get_result_iteration env self job_id wait max_wait start_time w
              = (Raise e, after_http env (status_request self job_id) w)
            /\ cls e <> TimeoutError.
Proof.
  unfold observed_status, get_result_iteration, bind. rewrite check_status_eq.
  destruct (result _) as [r|f]; [|intros _; eexists; split; [reflexivity|]; now cbn].
  destruct (status_code r =? 200)%Z; [|intros _; eexists; split; [reflexivity|]; now cbn].
  destruct (json_body r) as [[| | | | |m]|]; try discriminate;
    intros _; eexists; (split; [reflexivity|]); now cbn.
Qed.

(** *** The loop, turn env self job_id after turn *)

Lemma calls_turn (k : nat) (w : world) : calls (turn env self job_id k w) = (calls w + k)%nat.
Proof.
  revert w. induction k as [|k IH]; intros w; cbn [turn]; [lia|].
  rewrite IH. cbn. lia.
Qed.

Lemma pending_observation_inv (ex : exchange) :
  pending_observation ex = true ->
  exists job_status, observed_status ex = Some job_status /\ is_pending job_status = true.
Proof.
  unfold pending_observation. destruct (observed_status ex) as [js|]; [|discriminate].
  intros H. now exists js.
Qed.

Lemma loop_unfold_pending (fuel : nat) (max_wait : Z) (start_time : Q) (w : world) :
  pending_observation (respond env (calls w) (status_request self job_id)) = true ->
  get_result_loop env (S fuel) self job_id true max_wait start_time w =
    if Qgtb (now (after_http env (status_request self job_id) w) - start_time)
            (inject_Z max_wait)
    then Some (Raise (timeout_exn max_wait), after_http env (status_request self job_id) w)
    else get_result_loop env fuel self job_id true max_wait start_time (next_turn env self job_id w).
Proof.
  intros Hp. apply pending_observation_inv in Hp as (js & Hobs & Hpend).
  cbn [get_result_loop]. rewrite (iteration_pending true max_wait start_time w js Hobs Hpend).
  cbn [negb]. cbv zeta. now destruct (Qgtb _ _).
Qed.

(** Pending answers up to turn [k], at which the deadline has passed:
    [TimeoutError] at that turn env self job_id or before. *)
Lemma loop_timeout (max_wait : Z) (start_time : Q) (k : nat) :
  forall (w : world) (fuel : nat),
  (k < fuel)%nat ->
  (forall i, (i <= k)%nat ->
     pending_observation (respond env (calls (turn env self job_id i w)) (status_request self job_id)) = true) ->
  Qgtb (arrival env self job_id k w - start_time) (inject_Z max_wait) = true ->
  exists w', get_result_loop env fuel self job_id true max_wait start_time w
               = Some (Raise (timeout_exn max_wait), w').
Proof.
  induction k as [|k IH]; intros w fuel Hfuel Hpend Hlate;
    (destruct fuel as [|fuel]; [lia|]);
    rewrite loop_unfold_pending by (apply (Hpend 0%nat); lia).
  - unfold arrival in Hlate. cbn [turn] in Hlate. rewrite Hlate. now eexists.
  - destruct (Qgtb (now (after_http _ _ w) - _) _); [now eexists|].
    apply IH; [lia| |exact Hlate].
    intros i Hi. apply (Hpend (S i)). lia.
Qed.

(** Pending answers before turn [k], none of them past the deadline, and
    anything but a pending answer at turn [k]: the loop is left at turn
    [k], and not by [TimeoutError]. *)
Lemma loop_leaves (max_wait : Z) (start_time : Q) (k : nat) :
  forall (w : world) (fuel : nat),
  (k < fuel)%nat ->
  (forall i, (i < k)%nat ->
     pending_observation (respond env (calls (turn env self job_id i w)) (status_request self job_id)) = true) ->
  (forall i, (i < k)%nat -> Qgtb (arrival env self job_id i w - start_time) (inject_Z max_wait) = false) ->
  pending_observation (respond env (calls (turn env self job_id k w)) (status_request self job_id)) = false ->
  exists r, get_result_loop env fuel self job_id true max_wait start_time w
              = Some (r, after_http env (status_request self job_id) (turn env self job_id k w))
            /\ (forall e, r = Raise e -> cls e <> TimeoutError).
Proof.
  induction k as [|k IH]; intros w fuel Hfuel Hpend Hearly Hlast;
    (destruct fuel as [|fuel]; [lia|]).
  - cbn [turn] in *. cbn [get_result_loop].
    unfold pending_observation in Hlast.
    destruct (observed_status _) as [js|] eqn:Hobs.
    + destruct (iteration_terminal true max_wait start_time w js Hobs Hlast) as (r & -> & Hr).
      destruct r as [[r|]|e]; cbn in Hr; [| contradiction |].
      * eexists; split; [reflexivity|]. discriminate.
      * eexists; split; [reflexivity|]. now intros e' [= <-].
    + destruct (iteration_unanswered true max_wait start_time w Hobs) as (e & -> & He).
      eexists; split; [reflexivity|]. now intros e' [= <-].
  - rewrite loop_unfold_pending by (apply (Hpend 0%nat); lia).
    pose proof (Hearly 0%nat ltac:(lia)) as H0. unfold arrival in H0. cbn [turn] in H0.
    rewrite H0. cbn [turn].
    apply IH; [lia| | |exact Hlast].
    + intros i Hi. apply (Hpend (S i)). lia.
    + intros i Hi. apply (Hearly (S i)). lia.
Qed.

(** *** The clock *)

Lemma Qgtb_true (a b : Q) : Qgtb a b = true <-> (b < a)%Q.
Proof.
  unfold Qgtb. rewrite negb_true_iff. split.
  - intros H. apply Qnot_le_lt. intros Hle. apply Qle_bool_iff in Hle. congruence.
  - intros H. destruct (Qle_bool a b) eqn:E; [|reflexivity].
    apply Qle_bool_iff in E. exfalso. revert E. now apply Qlt_not_le.
Qed.

Lemma Qgtb_false (a b : Q) : Qgtb a b = false <-> (a <= b)%Q.
Proof.
  unfold Qgtb. rewrite negb_false_iff. apply Qle_bool_iff.
Qed.

Lemma turn_S (k : nat) (w : world) : turn env self job_id (S k) w = next_turn env self job_id (turn env self job_id k w).
Proof.
  revert w. induction k as [|k IH]; intros w; [reflexivity|].
  change (turn env self job_id (S (S k)) w) with (turn env self job_id (S k) (next_turn env self job_id w)). now rewrite IH.
Qed.

Lemma arrival_S (k : nat) (w : world) :
  arrival env self job_id (S k) w =
    (arrival env self job_id k w + 1
     + latency (respond env (calls (turn env self job_id (S k) w)) (status_request self job_id)))%Q.
Proof. unfold arrival. rewrite turn_S. reflexivity. Qed.

Lemma arrival_mono (i k : nat) (w : world) :
  nonneg_latency env -> (i <= k)%nat -> (arrival env self job_id i w <= arrival env self job_id k w)%Q.
Proof.
  intros Hnn Hik. induction Hik as [|k Hik IH]; [apply Qle_refl|].
  rewrite arrival_S.
  pose proof (Hnn (calls (turn env self job_id (S k) w)) (status_request self job_id)).
  clear Hnn Hik. lra.
Qed.

(** Each turn env self job_id sleeps a second: the answer of turn [k] cannot arrive less
    than [k] seconds after the start. *)
Lemma arrival_lower (k : nat) (w : world) :
  nonneg_latency env -> (now w + inject_Z (Z.of_nat k) <= arrival env self job_id k w)%Q.
Proof.
  intros Hnn. induction k as [|k IH].
  - unfold arrival. cbn [turn after_http now]. change (inject_Z (Z.of_nat 0)) with 0%Q.
    pose proof (Hnn (calls w) (status_request self job_id)). clear Hnn. lra.
  - rewrite arrival_S, Nat2Z.inj_succ. unfold Z.succ. rewrite inject_Z_plus.
    pose proof (Hnn (calls (turn env self job_id (S k) w)) (status_request self job_id)).
    change (inject_Z 1) with 1%Q. clear Hnn. lra.
Qed.

(** *** What the loop leaves in the trace *)

Lemma loop_trace (wait : bool) (max_wait : Z) (start_time : Q) (fuel : nat) :
  forall (w : world) (r : res (option Image)) (w' : world),
  get_result_loop env fuel self job_id wait max_wait start_time w = Some (r, w') ->
  exists evs,
    trace w' = trace w ++ evs
    /\ polled start_time max_wait (status_request self job_id) (now w) evs
    /\ (forall e, r = Raise e -> cls e = TimeoutError ->
          e = timeout_exn max_wait /\ (inject_Z max_wait < now w' - start_time)%Q).
Proof.
  induction fuel as [|fuel IH]; intros w r w' Hrun; [discriminate|].
  cbn [get_result_loop] in Hrun.
  destruct (observed_status (respond env (calls w) (status_request self job_id)))
    as [js|] eqn:Hobs.
  - destruct (is_pending js) eqn:Hp.
    + rewrite (iteration_pending wait max_wait start_time w js Hobs Hp) in Hrun.
      cbv zeta in Hrun. destruct wait; cbn [negb] in Hrun.
      * destruct (Qgtb _ _) eqn:Hlate.
        -- injection Hrun as <- <-. exists [EvHttp (now w) (status_request self job_id)].
           split; [reflexivity|]. split; [constructor|].
           intros e [= <-] _. split; [reflexivity|]. now apply Qgtb_true.
        -- apply IH in Hrun as (evs & Htr & Hpolled & Hto).
           exists (EvHttp (now w) (status_request self job_id)
                   :: EvSleep (now (after_http env (status_request self job_id) w)) 1 :: evs).
           split; [rewrite Htr; cbn; now rewrite <- !app_assoc|].
           split; [|exact Hto].
           constructor; [now apply Qgtb_false|exact Hpolled].
      * injection Hrun as <- <-. exists [EvHttp (now w) (status_request self job_id)].
        split; [reflexivity|]. split; [constructor|]. discriminate.
    + destruct (iteration_terminal wait max_wait start_time w js Hobs Hp) as (r0 & Hit & Hr0).
      rewrite Hit in Hrun.
      exists [EvHttp (now w) (status_request self job_id)].
      destruct r0 as [[x|]|e0]; cbn in Hr0; [| contradiction |];
        injection Hrun as <- <-; (split; [reflexivity|]); (split; [constructor|]).
      * discriminate.
      * intros e [= <-] Hc. contradiction.
  - destruct (iteration_unanswered wait max_wait start_time w Hobs) as (e0 & Hit & He0).
    rewrite Hit in Hrun. injection Hrun as <- <-.
    exists [EvHttp (now w) (status_request self job_id)].
    split; [reflexivity|]. split; [constructor|].
    intros e [= <-] Hc. contradiction.
Qed.

(** *** Termination: with answers that take no negative time, the loop is
    left once more turns are allowed than seconds remain. *)
Lemma loop_terminates (wait : bool) (max_wait : Z) (start_time : Q) (fuel : nat) :
  nonneg_latency env ->
  forall (w : world),
  (inject_Z max_wait < now w - start_time + inject_Z (Z.of_nat fuel))%Q ->
  exists r w', get_result_loop env (S fuel) self job_id wait max_wait start_time w
                 = Some (r, w').
Proof.
  intros Hnn. induction fuel as [|fuel IH]; intros w Hbudget;
    cbn [get_result_loop];
    (destruct (observed_status (respond env (calls w) (status_request self job_id)))
      as [js|] eqn:Hobs;
     [destruct (is_pending js) eqn:Hp|]).
  all: try (destruct (iteration_terminal wait max_wait start_time w js Hobs Hp)
              as (r0 & -> & Hr0);
            destruct r0 as [[x|]|e0]; cbn in Hr0; [| contradiction |]; now eauto).
  all: try (destruct (iteration_unanswered wait max_wait start_time w Hobs)
              as (e0 & -> & He0); now eauto).
  all: rewrite (iteration_pending wait max_wait start_time w js Hobs Hp);
       cbv zeta; destruct wait; cbn [negb]; [|now eauto];
       destruct (Qgtb _ _) eqn:Hlate; [now eauto|].
  - exfalso. apply Qgtb_false in Hlate. cbn [after_http now] in Hlate.
    pose proof (Hnn (calls w) (status_request self job_id)).
    change (inject_Z (Z.of_nat 0)) with 0%Q in Hbudget. clear Hnn. lra.
  - apply IH. cbn [after_sleep after_http now].
    pose proof (Hnn (calls w) (status_request self job_id)).
    rewrite Nat2Z.inj_succ in Hbudget. unfold Z.succ in Hbudget.
    rewrite inject_Z_plus in Hbudget. change (inject_Z 1) with 1%Q in Hbudget.
    clear Hnn IH. lra.
Qed.

(** [get_result] returns or raises within [max_wait + 2] turns. *)
Lemma get_result_terminates (wait : bool) (max_wait : Z) (fuel : nat) (w : world) :
  nonneg_latency env ->
  (Z.to_nat max_wait + 2 <= fuel)%nat ->
  exists r w', get_result env fuel self job_id wait max_wait w = Some (r, w').
Proof.
  intros Hnn Hfuel. destruct fuel as [|fuel]; [lia|].
  unfold get_result. apply loop_terminates; [exact Hnn|].
  assert (max_wait < Z.of_nat fuel)%Z as Hlt by lia.
  apply (Qlt_le_trans _ (inject_Z (Z.of_nat fuel))).
  - unfold Qlt. cbn. lia.
  - clear. set (f := inject_Z (Z.of_nat fuel)). set (t := now w). lra.
Qed.

(** A job that stays pending: [TimeoutError] within [max_wait + 2]
    turns. *)
Lemma get_result_times_out (max_wait : Z) (fuel : nat) (w : world) :
  nonneg_latency env ->
  (forall n, pending_observation (respond env n (status_request self job_id)) = true) ->
  (Z.to_nat max_wait + 2 <= fuel)%nat ->
  exists w', get_result env fuel self job_id true max_wait w
               = Some (Raise (timeout_exn max_wait), w').
Proof.
  intros Hnn Hpend Hfuel. unfold get_result.
  apply (loop_timeout max_wait (now w) (Z.to_nat max_wait + 1)); [lia|auto|].
  apply Qgtb_true.
  pose proof (arrival_lower (Z.to_nat max_wait + 1) w Hnn) as Hlow.
  assert (inject_Z max_wait < inject_Z (Z.of_nat (Z.to_nat max_wait + 1)))%Q as Hlt
    by (unfold Qlt; cbn; lia).
  clear Hnn Hpend Hfuel.
  set (a := arrival env self job_id (Z.to_nat max_wait + 1) w) in *.
  set (k := inject_Z (Z.of_nat (Z.to_nat max_wait + 1))) in *.
  set (t := now w) in *. lra.
Qed.

End Loop.
End ClientFacts.

(* ===================================================================== *)
(** ** Facts about the two submissions                                    *)
(* ===================================================================== *)

Module SubmitFacts.
Import Py Net Client Run ClientFacts.

Lemma stateless_ret {A} (a : A) : stateless (ret a).
Proof. now intros w. Qed.

Lemma stateless_raise {A} (c : exc_class) (m : list fragment) : stateless (@raise A c m).
Proof. now intros w. Qed.

Lemma stateless_lift {A} (x : exn + A) : stateless (lift x).
Proof. intros w. now destruct x. Qed.

Lemma stateless_bind {A B} (m : M A) (k : A -> M B) :
  stateless m -> (forall a, stateless (k a)) -> stateless (bind m k).
Proof.
  intros Hm Hk w. unfold bind. specialize (Hm w).
  destruct (m w) as [[a|e] w1]; cbn in Hm; subst; [apply Hk|reflexivity].
Qed.

Lemma stateless_if {A} (b : bool) (m1 m2 : M A) :
  stateless m1 -> stateless m2 -> stateless (if b then m1 else m2).
Proof. now destruct b. Qed.

Lemma stateless_response_json (r : response) : stateless (response_json r).
Proof. unfold response_json. destruct (json_body r); [apply stateless_ret|apply stateless_raise]. Qed.

Lemma stateless_Image_open (env : environment) (data : list byte) :
  stateless (Image_open env data).
Proof.
  unfold Image_open. destruct (identifiable env data);
    [apply stateless_ret|apply stateless_raise].
Qed.

Create HintDb stateless.
#[export] Hint Resolve stateless_ret stateless_raise stateless_lift stateless_if
  stateless_response_json stateless_Image_open : stateless.
#[export] Hint Extern 2 (stateless (bind _ _)) =>
  (apply stateless_bind; [|intros ?]) : stateless.

Section Submit.
Variable env : environment.
Variable self : ZImageClient.

(** After a computation that changes the world, one that does not. *)
Lemma snd_bind_stateless {A B} (m : M A) (k : A -> M B) (w : world) :
  (forall a, stateless (k a)) -> snd (bind m k w) = snd (m w).
Proof.
  intros Hk. unfold bind. destruct (m w) as [[a|e] w1]; [apply Hk|reflexivity].
Qed.

Lemma generate_sync_world (prompt : string) (height width steps : Z)
    (seed : option Z) (timeout : Z) (w : world) :
  snd (generate_sync env self prompt height width steps seed timeout w) =
    after_http env (sync_request self prompt height width steps seed timeout)
      (after_print [Lit "Sending request to "; Fmt (JStr (base_url self +:+ "/runsync"))] w).
Proof.
  unfold generate_sync. unfold bind at 1. cbn [print].
  rewrite snd_bind_stateless by (intros r; auto 20 with stateless).
  unfold requests_post. rewrite http_eq. reflexivity.
Qed.

Lemma generate_async_world (prompt : string) (height width steps : Z)
    (seed : option Z) (w : world) :
  snd (generate_async env self prompt height width steps seed w) =
    after_http env (async_request self prompt height width steps seed) w.
Proof.
  unfold generate_async.
  rewrite snd_bind_stateless by (intros r; auto 20 with stateless).
  unfold requests_post. rewrite http_eq. reflexivity.
Qed.

End Submit.

Section SyncAnswers.
Variable env : environment.
Variable self : ZImageClient.
Variables (prompt : string) (height width steps : Z) (seed : option Z) (timeout : Z).
Variable w : world.

(** [generate_sync] once the request is posted: what remains is read off
    the answer. *)
Lemma generate_sync_answer :
  fst (generate_sync env self prompt height width steps seed timeout w) =
    match result (respond env (calls w)
                    (sync_request self prompt height width steps seed timeout)) with
    | Failed f => Raise (mk_exn (RequestException f) [])
    | Responded r =>
        if negb (status_code r =? 200)%Z then
          Raise (mk_exn Exception
                   [Lit "API request failed: "; Fmt (JInt (status_code r));
                    Lit " - "; Fmt (JStr (text r))])
        else
          match json_body r with
          | None => Raise (mk_exn JSONDecodeError [])
          | Some body =>
              match contains "error" body with
              | inl e => Raise e
              | inr true =>
                  match getitem body "error" with
                  | inl e => Raise e
                  | inr err => Raise (mk_exn Exception [Lit "Generation failed: "; Fmt err])
                  end
              | inr false =>
                  match get body "output" (JObj ∅) with
                  | inl e => Raise e
                  | inr output =>
                      match contains "error" output with
                      | inl e => Raise e
                      | inr true =>
                          match getitem output "error" with
                          | inl e => Raise e
                          | inr err =>
                              Raise (mk_exn Exception [Lit "Generation failed: "; Fmt err])
                          end
                      | inr false =>
                          match get output "image" JNull with
                          | inl e => Raise e
                          | inr img_base64 =>
                              if negb (truthy img_base64) then
                                Raise (mk_exn Exception
                                         [Lit "No image in response: "; Fmt body])
                              else
                                match b64decode img_base64 with
                                | inl e => Raise e
                                | inr img_data =>
                                    if identifiable env img_data
                                    then Return (PILImage img_data)
                                    else Raise (mk_exn UnidentifiedImageError [])
                                end
                          end
                      end
                  end
              end
          end
    end.
Proof.
  unfold generate_sync, bind, print, requests_post.
  change (mk_request POST _ _ _ (Some timeout))
    with (sync_request self prompt height width steps seed timeout).
  rewrite http_eq. cbn [calls].
  destruct (result _) as [r|f]; [|reflexivity].
  destruct (negb (status_code r =? 200)%Z); [reflexivity|].
  unfold response_json. destruct (json_body r) as [body|]; [|reflexivity]. cbn [ret].
  destruct (contains "error" body) as [e|[|]]; cbn [lift]; [reflexivity| |].
  { destruct (getitem body "error"); reflexivity. }
  destruct (get body "output" (JObj ∅)) as [e|output]; cbn [lift]; [reflexivity|].
  destruct (contains "error" output) as [e|[|]]; cbn [lift]; [reflexivity| |].
  { destruct (getitem output "error"); reflexivity. }
  destruct (get output "image" JNull) as [e|img]; cbn [lift]; [reflexivity|].
  destruct (negb (truthy img)); [reflexivity|].
  destruct (b64decode img) as [e|data]; cbn [lift]; [reflexivity|].
  unfold Image_open. destruct (identifiable env data); reflexivity.
Qed.

End SyncAnswers.

(** *** The handler's side of the exchange *)

(** The checks the client leaves to the service: [generate_image] answers
    an empty prompt, and a height or width that is not a multiple of 8,
    with an error payload. *)
Lemma generate_image_rejects
    (pipe : string -> Z -> Z -> Z -> option Z -> (string * string) + list byte)
    (job : Handler.job_input) :
  default "" (Handler.in_prompt job) = ""
  \/ (default 1024 (Handler.in_height job) mod 8 <> 0)%Z
  \/ (default 1024 (Handler.in_width job) mod 8 <> 0)%Z ->
  exists text, Handler.generate_image pipe job = JObj {[ "error" := JStr text ]}.
Proof.
  intros H. unfold Handler.generate_image.
  destruct (truthy (JStr (default "" (Handler.in_prompt job)))) eqn:Hp; cbn [negb];
    [|now eexists].
  destruct H as [H|H].
  { rewrite H in Hp. discriminate Hp. }
  assert (negb (default 1024 (Handler.in_height job) mod 8 =? 0)%Z
          || negb (default 1024 (Handler.in_width job) mod 8 =? 0)%Z = true) as ->.
  { apply orb_true_iff. destruct H as [H|H]; [left|right];
      now apply negb_true_iff, Z.eqb_neq. }
  now eexists.
Qed.

Lemma b64encode_nonempty (data : list byte) :
  data <> [] -> truthy (JStr (Base64.b64encode data)) = true.
Proof.
  intros Hne. destruct data as [|b1 [|b2 [|b3 rest]]]; [contradiction|reflexivity ..].
Qed.

(** What the handler embeds, the client reads back: when [generate_image]
    succeeds with the PNG [buffered] and its payload comes back as the
    output of the synchronous call, [generate_sync] opens exactly
    [buffered]. *)
Lemma generate_sync_reads_handler_image (env : environment) (self : ZImageClient)
    (prompt : string) (height width steps : Z) (seed : option Z) (timeout : Z)
    (w : world) (r : response)
    (pipe : string -> Z -> Z -> Z -> option Z -> (string * string) + list byte)
    (buffered : list byte) :
  let job := Handler.mk_job_input (Some prompt) (Some height) (Some width) (Some steps) seed in
  result (respond env (calls w) (sync_request self prompt height width steps seed timeout))
    = Responded r ->
  status_code r = 200%Z ->
  json_body r = Some (JObj {[ "output" := Handler.generate_image pipe job ]}) ->
  prompt <> "" -> (height mod 8 = 0)%Z -> (width mod 8 = 0)%Z ->
  pipe prompt height width steps seed = inr buffered ->
  buffered <> [] ->
  identifiable env buffered = true ->
  fst (generate_sync env self prompt height width steps seed timeout w)
    = Return (PILImage buffered).
Proof.
  intros job Hr Hc Hj Hp Hh Hw Hpipe Hne Hid.
  assert (Handler.generate_image pipe job
          = JObj (<[ "image" := JStr (Base64.b64encode buffered) ]>
                 (<[ "format" := JStr "base64" ]>
                 (<[ "prompt" := JStr prompt ]>
                 (<[ "seed" := match seed with Some z => JInt z | None => JNull end ]>
                 (<[ "height" := JInt height ]>
                 (<[ "width" := JInt width ]> ∅))))))) as Hgen.
  { unfold Handler.generate_image, job. cbn [Handler.in_prompt Handler.in_height
      Handler.in_width Handler.in_num_inference_steps Handler.in_seed default from_option id].
    assert (truthy (JStr prompt) = true) as ->.
    { cbn. apply negb_true_iff, String.eqb_neq, Hp. }
    rewrite Hh, Hw, Hpipe. reflexivity. }
  rewrite Hgen in Hj.
  rewrite generate_sync_answer, Hr, Hc, Hj.
  cbn [negb Z.eqb Pos.eqb contains get].
  rewrite bool_decide_eq_false_2 by (rewrite lookup_singleton_ne by discriminate; now intros [? ?]).
  rewrite lookup_singleton_eq. cbn [default from_option id contains get].
  rewrite bool_decide_eq_false_2
    by (rewrite !lookup_insert_ne by discriminate; rewrite lookup_empty; now intros [? ?]).
  rewrite lookup_insert_eq. cbn [default from_option id].
  rewrite (b64encode_nonempty buffered Hne). cbn [negb].
  unfold Py.b64decode.
  rewrite (Base64Facts.b64decode_encoded buffered).
  now rewrite Hid.
Qed.

End SubmitFacts.

(* ===================================================================== *)
(** ** The properties of the specification                                *)
(* ===================================================================== *)

Import Py Net Client Run ClientFacts SubmitFacts.

(** C1, as stated, fails: with an empty prompt and a height of 1023, both
    submissions post the request, and each returns what the service sent
    back. *)
Lemma validates_before_network_fails :
  let env := Examples.always (Examples.answer 0 Examples.image_body) in
  let sync := generate_sync env Examples.client0 "" 1023 1024 9 None 120 Examples.world0 in
  let async := generate_async env Examples.client0 "" 1023 1024 9 None Examples.world0 in
  Spec.valid_request "" 1023 1024 = false
  /\ fst sync = Return (PILImage Examples.png_signature)
  /\ http_calls (trace (snd sync)) = 1%nat
  /\ fst async = Return (JStr "job-1")
  /\ http_calls (trace (snd async)) = 1%nat
  /\ ~ Spec.validates_before_network.
Proof.
  cbv zeta. repeat (split; [vm_compute; reflexivity|]).
  intros H.
  destruct (H (Examples.always (Examples.answer 0 Examples.image_body))
              Examples.client0 "" 1023%Z 1024%Z 9%Z None 120%Z Examples.world0 eq_refl)
    as ((e & He) & _).
  vm_compute in He. discriminate He.
Qed.

(** C1, amended. Neither submission checks the request: whatever the
    prompt, height and width, [generate_sync] and [generate_async] each
    make exactly one HTTP POST, at the moment they are called, carrying the
    fields as given; nothing is raised before it. *)
Theorem submissions_post_unchecked (env : environment) (self : ZImageClient)
    (prompt : string) (height width steps : Z) (seed : option Z) (timeout : Z)
    (w : world) :
  let sync := generate_sync env self prompt height width steps seed timeout w in
  let async := generate_async env self prompt height width steps seed w in
  trace (snd sync)
    = trace w
      ++ [EvPrint (now w) [Lit "Sending request to "; Fmt (JStr (base_url self +:+ "/runsync"))];
          EvHttp (now w) (sync_request self prompt height width steps seed timeout)]
  /\ http_calls (trace (snd sync)) = S (http_calls (trace w))
  /\ trace (snd async)
    = trace w ++ [EvHttp (now w) (async_request self prompt height width steps seed)]
  /\ http_calls (trace (snd async)) = S (http_calls (trace w)).
Proof.
  cbv zeta. rewrite generate_sync_world, generate_async_world.
  cbn [after_http after_print trace now calls].
  rewrite <- app_assoc. cbn [app].
  split; [reflexivity|]. split.
  - rewrite http_calls_app.
    change (http_calls [EvPrint _ _; EvHttp _ _]) with 1%nat. lia.
  - split; [reflexivity|]. apply http_calls_query.
Qed.

(** C2, as stated, fails: an HTTP 500 answer (a transport error) and an
    HTTP 200 answer that embeds an error (a remote error) both raise the
    generic [Exception]; only the message text tells them apart. *)
Lemma kinds_are_distinct_fails :
  let transport := generate_sync (Examples.always Examples.server_error)
                     Examples.client0 "sunset" 1024 1024 9 None 120 Examples.world0 in
  let remote := generate_sync (Examples.always (Examples.answer 0 Examples.error_body))
                  Examples.client0 "sunset" 1024 1024 9 None 120 Examples.world0 in
  fst transport
    = Raise (mk_exn Exception [Lit "API request failed: "; Fmt (JInt 500); Lit " - ";
                               Fmt (JStr "Internal Server Error")])
  /\ fst remote
    = Raise (mk_exn Exception [Lit "Generation failed: "; Fmt (JStr "out of memory")])
  /\ ~ Spec.kinds_are_distinct.
Proof.
  cbv zeta. repeat (split; [vm_compute; reflexivity|]).
  intros H.
  refine (H (Examples.always Examples.server_error)
            (Examples.always (Examples.answer 0 Examples.error_body))
            Examples.client0 "sunset" 1024%Z 1024%Z 9%Z None 120%Z Examples.world0
            _ _ Spec.TransportError Spec.RemoteError _ _ _ _ _ _);
    [vm_compute; reflexivity .. | discriminate | reflexivity].
Qed.

(** C2, amended. The failures of the client reach the caller in two
    classes of its own. A non-200 answer, an error embedded in the answer,
    a [FAILED] job and an unknown status all raise the generic
    [Exception] and differ only in the text of the message; an exceeded
    poll deadline raises the built-in [TimeoutError]. *)
Theorem failures_by_class (env : environment) (self : ZImageClient)
    (prompt : string) (height width steps : Z) (seed : option Z) (timeout : Z)
    (job_id : string) (max_wait : Z) (start_time : Q) (fuel : nat) (w : world) :
  let sync := generate_sync env self prompt height width steps seed timeout w in
  let sync_answer :=
    respond env (calls w) (sync_request self prompt height width steps seed timeout) in
  let poll := get_result_loop env (S fuel) self job_id true max_wait start_time w in
  let poll_answer := respond env (calls w) (status_request self job_id) in
  let w1 := after_http env (status_request self job_id) w in
  (forall r, result sync_answer = Responded r -> status_code r <> 200%Z ->
     fst sync = Raise (mk_exn Exception
                         [Lit "API request failed: "; Fmt (JInt (status_code r));
                          Lit " - "; Fmt (JStr (text r))]))
  /\ (forall r m v, result sync_answer = Responded r -> status_code r = 200%Z ->
        json_body r = Some (JObj m) -> m !! "error" = Some v ->
        fst sync = Raise (mk_exn Exception [Lit "Generation failed: "; Fmt v]))
  /\ (forall r m, result poll_answer = Responded r -> status_code r = 200%Z ->
        json_body r = Some (JObj m) -> m !! "status" = Some (JStr "FAILED") ->
        poll = Some (Raise (mk_exn Exception
                              [Lit "Job failed: ";
                               Fmt (default (JStr "Unknown error") (m !! "error"))]), w1))
  /\ (forall job_status, observed_status poll_answer = Some job_status ->
        is_known job_status = false ->
        poll = Some (Raise (mk_exn Exception
                              [Lit "Unknown job status: "; Fmt job_status]), w1))
  /\ (pending_observation poll_answer = true ->
        (inject_Z max_wait < now w1 - start_time)%Q ->
        poll = Some (Raise (mk_exn TimeoutError
                              [Lit "Job did not complete within "; Fmt (JInt max_wait);
                               Lit " seconds"]), w1)).
Proof.
  cbv zeta. repeat split.
  - intros r Hr Hc. rewrite generate_sync_answer, Hr.
    apply Z.eqb_neq in Hc. now rewrite Hc.
  - intros r m v Hr Hc Hj Hm. rewrite generate_sync_answer, Hr, Hc, Hj.
    cbn [negb Z.eqb Pos.eqb contains getitem]. rewrite Hm.
    rewrite bool_decide_eq_true_2 by eauto. reflexivity.
  - intros r m Hr Hc Hj Hm. cbn [get_result_loop].
    now rewrite (iteration_failed env self job_id true max_wait start_time w r m Hr Hc Hj Hm).
  - intros js Hobs Hk. cbn [get_result_loop].
    now rewrite (iteration_unknown env self job_id true max_wait start_time w js Hobs Hk).
  - intros Hp Hlate. rewrite loop_unfold_pending by exact Hp.
    apply Qgtb_true in Hlate. now rewrite Hlate.
Qed.

Lemma failures_by_class_witness :
  fst (generate_sync (Examples.always Examples.server_error)
         Examples.client0 "sunset" 1024 1024 9 None 120 Examples.world0)
    = Raise (mk_exn Exception [Lit "API request failed: "; Fmt (JInt 500); Lit " - ";
                               Fmt (JStr "Internal Server Error")])
  /\ fst (generate_sync (Examples.always (Examples.answer 0 Examples.error_body))
            Examples.client0 "sunset" 1024 1024 9 None 120 Examples.world0)
    = Raise (mk_exn Exception [Lit "Generation failed: "; Fmt (JStr "out of memory")])
  /\ get_result_loop (Examples.always (Examples.answer 0 (Examples.status_body "FAILED")))
       1 Examples.client0 "job-1" true 120 0 Examples.world0
    = Some (Raise (mk_exn Exception [Lit "Job failed: "; Fmt (JStr "Unknown error")]),
            after_http (Examples.always (Examples.answer 0 (Examples.status_body "FAILED")))
              (status_request Examples.client0 "job-1") Examples.world0)
  /\ get_result_loop (Examples.always (Examples.answer 0 (Examples.status_body "PAUSED")))
       1 Examples.client0 "job-1" true 120 0 Examples.world0
    = Some (Raise (mk_exn Exception [Lit "Unknown job status: "; Fmt (JStr "PAUSED")]),
            after_http (Examples.always (Examples.answer 0 (Examples.status_body "PAUSED")))
              (status_request Examples.client0 "job-1") Examples.world0)
  /\ get_result_loop (Examples.always (Examples.answer 3 (Examples.status_body "IN_QUEUE")))
       1 Examples.client0 "job-1" true 2 0 Examples.world0
    = Some (Raise (mk_exn TimeoutError
                     [Lit "Job did not complete within "; Fmt (JInt 2); Lit " seconds"]),
            after_http (Examples.always (Examples.answer 3 (Examples.status_body "IN_QUEUE")))
              (status_request Examples.client0 "job-1") Examples.world0).
Proof.
  split; [|split; [|split; [|split]]].
  - pose proof (failures_by_class (Examples.always Examples.server_error)
                  Examples.client0 "sunset" 1024 1024 9 None 120 "job-1" 120 0 0
                  Examples.world0) as H.
    cbv zeta in H. destruct H as (H & _).
    apply (H (mk_response 500 "Internal Server Error" None)); [reflexivity|discriminate].
  - pose proof (failures_by_class (Examples.always (Examples.answer 0 Examples.error_body))
                  Examples.client0 "sunset" 1024 1024 9 None 120 "job-1" 120 0 0
                  Examples.world0) as H.
    cbv zeta in H. destruct H as (_ & H & _).
    apply (H (mk_response 200 "" (Some Examples.error_body))
             {[ "error" := JStr "out of memory" ]} (JStr "out of memory")); reflexivity.
  - pose proof (failures_by_class
                  (Examples.always (Examples.answer 0 (Examples.status_body "FAILED")))
                  Examples.client0 "sunset" 1024 1024 9 None 120 "job-1" 120 0 0
                  Examples.world0) as H.
    cbv zeta in H. destruct H as (_ & _ & H & _).
    etransitivity;
      [apply (H (mk_response 200 "" (Some (Examples.status_body "FAILED")))
                {[ "status" := JStr "FAILED" ]}); reflexivity
      |vm_compute; reflexivity].
  - pose proof (failures_by_class
                  (Examples.always (Examples.answer 0 (Examples.status_body "PAUSED")))
                  Examples.client0 "sunset" 1024 1024 9 None 120 "job-1" 120 0 0
                  Examples.world0) as H.
    cbv zeta in H. destruct H as (_ & _ & _ & H & _).
    apply (H (JStr "PAUSED")); reflexivity.
  - pose proof (failures_by_class
                  (Examples.always (Examples.answer 3 (Examples.status_body "IN_QUEUE")))
                  Examples.client0 "sunset" 1024 1024 9 None 120 "job-1" 2 0 0
                  Examples.world0) as H.
    cbv zeta in H. destruct H as (_ & _ & _ & _ & H).
    apply H; reflexivity.
Defined.

(** C3, as stated, fails: with [max_wait = 1] and a job that stays in the
    queue, the elapsed time is found to be 1 after the second query, which
    is not more than [max_wait]; the loop sleeps a second and issues the
    third query at 2 seconds. The [TimeoutError] that follows names
    [max_wait], not the 2 seconds elapsed. *)
Lemma queries_within_budget_fails :
  let env := Examples.always (Examples.answer 0 (Examples.status_body "IN_QUEUE")) in
  let run := get_result env 5 Examples.client0 "job-1" true 1 Examples.world0 in
  Spec.final_exception run
    = Some (mk_exn TimeoutError
              [Lit "Job did not complete within "; Fmt (JInt 1); Lit " seconds"])
  /\ In (EvHttp 2 (status_request Examples.client0 "job-1")) (Spec.final_trace run)
  /\ (inject_Z 1 < 2 - now Examples.world0)%Q
  /\ ~ Spec.queries_within_budget.
Proof.
  cbv zeta.
  assert (In (EvHttp 2 (status_request Examples.client0 "job-1"))
            (Spec.final_trace
               (get_result (Examples.always (Examples.answer 0 (Examples.status_body "IN_QUEUE")))
                  5 Examples.client0 "job-1" true 1 Examples.world0))) as Hin.
  { vm_compute. do 4 right. left. reflexivity. }
  split; [vm_compute; reflexivity|]. split; [exact Hin|]. split; [reflexivity|].
  intros H.
  destruct (get_result (Examples.always (Examples.answer 0 (Examples.status_body "IN_QUEUE")))
              5 Examples.client0 "job-1" true 1 Examples.world0) as [[r w']|] eqn:Hrun;
    [|vm_compute in Hrun; discriminate Hrun].
  specialize (H _ _ _ _ _ _ _ _ (trace w') 2%Q (status_request Examples.client0 "job-1")
                Hrun eq_refl Hin).
  vm_compute in H. apply H. reflexivity.
Qed.

(** C3, amended. In the waiting poll loop the elapsed time is compared
    with [max_wait] after each pending observation and before the
    one-second sleep that precedes the next status query, not after that
    sleep: the first query is issued at the start, and every further query
    directly follows a one-second sleep that began at a moment when the
    elapsed time was at most [max_wait]. A [TimeoutError] raised by the
    loop is raised right after the answer to a query, with the elapsed
    time above [max_wait] and without a further sleep or query; its
    message names [max_wait], not the elapsed duration. *)
Theorem queries_follow_checked_sleeps (env : environment) (fuel : nat)
    (self : ZImageClient) (job_id : string) (max_wait : Z) (w : world)
    (r : res (option Image)) (w' : world) :
  get_result env fuel self job_id true max_wait w = Some (r, w') ->
  exists evs,
    trace w' = trace w ++ evs
    /\ polled (now w) max_wait (status_request self job_id) (now w) evs
    /\ (forall e, r = Raise e -> cls e = TimeoutError ->
          e = mk_exn TimeoutError
                [Lit "Job did not complete within "; Fmt (JInt max_wait); Lit " seconds"]
          /\ (inject_Z max_wait < now w' - now w)%Q).
Proof.
  unfold get_result. intros Hrun.
  exact (loop_trace env self job_id true max_wait (now w) fuel w r w' Hrun).
Qed.

Lemma queries_follow_checked_sleeps_witness :
  exists r w',
    get_result (Examples.always (Examples.answer 0 (Examples.status_body "IN_QUEUE")))
      5 Examples.client0 "job-1" true 1 Examples.world0 = Some (r, w')
    /\ exists evs,
         trace w' = trace Examples.world0 ++ evs
         /\ polled (now Examples.world0) 1 (status_request Examples.client0 "job-1")
              (now Examples.world0) evs
         /\ (forall e, r = Raise e -> cls e = TimeoutError ->
               e = mk_exn TimeoutError
                     [Lit "Job did not complete within "; Fmt (JInt 1); Lit " seconds"]
               /\ (inject_Z 1 < now w' - now Examples.world0)%Q).
Proof.
  eexists _, _. split; [vm_compute; reflexivity|].
  apply (queries_follow_checked_sleeps
           (Examples.always (Examples.answer 0 (Examples.status_body "IN_QUEUE")))
           5 Examples.client0 "job-1" 1 Examples.world0).
  vm_compute. reflexivity.
Defined.

(** C4, as stated, fails: with [max_wait = 3] and a service that takes
    one second for each answer, the second pending answer arrives at 3
    seconds, which is not more than [max_wait]; the loop sleeps a second
    and issues its third query at 4 seconds, when the elapsed time exceeds
    [max_wait] and every status observed so far is pending. That query is
    answered with [COMPLETED], and [get_result] returns the image instead
    of raising [TimeoutError]. *)
Lemma timeout_once_over_budget_fails :
  let rq := status_request Examples.client0 "job-1" in
  let run := get_result Examples2.completes_late 5 Examples.client0 "job-1" true 3
               Examples.world0 in
  (exists w', run = Some (Return (Some (PILImage Examples2.one_pixel_png)), w'))
  /\ Spec.final_trace run
       = [EvHttp 0 rq; EvSleep 1 1; EvHttp 2 rq; EvSleep 3 1; EvHttp 4 rq]
  /\ (inject_Z 3 < 4 - now Examples.world0)%Q
  /\ ~ Spec.timeout_once_over_budget.
Proof.
  cbv zeta. split; [eexists; vm_compute; reflexivity|].
  split; [vm_compute; reflexivity|]. split; [reflexivity|].
  intros H.
  destruct (H Examples2.completes_late 5%nat Examples.client0 "job-1" 3%Z Examples.world0
              (Return (Some (PILImage Examples2.one_pixel_png)))
              (mk_world 5 3
                 [EvHttp 0 (status_request Examples.client0 "job-1"); EvSleep 1 1;
                  EvHttp 2 (status_request Examples.client0 "job-1"); EvSleep 3 1;
                  EvHttp 4 (status_request Examples.client0 "job-1")])
              [EvHttp 0 (status_request Examples.client0 "job-1"); EvSleep 1 1;
               EvHttp 2 (status_request Examples.client0 "job-1"); EvSleep 3 1]
              [] 4%Q (status_request Examples.client0 "job-1"))
    as (e & He & _).
  - vm_compute. reflexivity.
  - reflexivity.
  - discriminate.
  - reflexivity.
  - discriminate He.
Qed.

(** C4, amended. [get_result] with [wait=True] tests the deadline only
    right after a pending answer. When the first [k] status queries are
    answered with a pending status:

    - if the next answer is pending as well and arrives when more than
      [max_wait] seconds have elapsed, [TimeoutError] is raised (at that
      turn at the latest);
    - if the next answer carries a terminal status and arrives strictly
      before the deadline, the loop is left on that answer and what it
      returns or raises is not a [TimeoutError];
    - if the [k] pending answers each arrived when at most [max_wait]
      seconds had elapsed and the next answer carries a terminal status,
      the loop is left on that answer and what it returns or raises is
      not a [TimeoutError], whenever that answer arrives: also when the
      deadline passed during the sleep before its query, or during the
      query.

    In all cases [k + 1] turns of the loop are enough. *)
Theorem timeout_only_while_pending (env : environment) (self : ZImageClient)
    (job_id : string) (max_wait : Z) (w : world) (k fuel : nat) :
  (k < fuel)%nat ->
  (forall i, (i < k)%nat ->
     pending_observation (respond env (calls w + i) (status_request self job_id)) = true) ->
  (pending_observation (respond env (calls w + k) (status_request self job_id)) = true ->
   (inject_Z max_wait < arrival env self job_id k w - now w)%Q ->
   exists w',
     get_result env fuel self job_id true max_wait w
       = Some (Raise (mk_exn TimeoutError
                        [Lit "Job did not complete within "; Fmt (JInt max_wait);
                         Lit " seconds"]), w'))
  /\ (terminal_observation (respond env (calls w + k) (status_request self job_id)) = true ->
      nonneg_latency env ->
      (arrival env self job_id k w - now w < inject_Z max_wait)%Q ->
      exists r,
        get_result env fuel self job_id true max_wait w
          = Some (r, after_http env (status_request self job_id) (turn env self job_id k w))
        /\ (forall e, r = Raise e -> cls e <> TimeoutError))
  /\ (terminal_observation (respond env (calls w + k) (status_request self job_id)) = true ->
      (forall i, (i < k)%nat ->
         (arrival env self job_id i w - now w <= inject_Z max_wait)%Q) ->
      exists r,
        get_result env fuel self job_id true max_wait w
          = Some (r, after_http env (status_request self job_id) (turn env self job_id k w))
        /\ (forall e, r = Raise e -> cls e <> TimeoutError)).
Proof.
  intros Hfuel Hpend. split; [|split].
  - intros Hk Hlate. unfold get_result.
    apply (loop_timeout env self job_id max_wait (now w) k w fuel Hfuel).
    + intros i Hi. rewrite calls_turn.
      destruct (Nat.eq_dec i k) as [->|Hne]; [exact Hk|apply Hpend; lia].
    + now apply Qgtb_true.
  - intros Hk Hnn Hearly. unfold get_result.
    apply (loop_leaves env self job_id max_wait (now w) k w fuel Hfuel).
    + intros i Hi. rewrite calls_turn. now apply Hpend.
    + intros i Hi. apply Qgtb_false.
      pose proof (arrival_mono env self job_id i k w Hnn ltac:(lia)) as Hmono.
      clear Hnn Hpend Hk. lra.
    + rewrite calls_turn. unfold terminal_observation in Hk. unfold pending_observation.
      destruct (observed_status _); [|reflexivity]. now apply negb_true_iff in Hk.
  - intros Hk Hwithin. unfold get_result.
    apply (loop_leaves env self job_id max_wait (now w) k w fuel Hfuel).
    + intros i Hi. rewrite calls_turn. now apply Hpend.
    + intros i Hi. apply Qgtb_false. now apply Hwithin.
    + rewrite calls_turn. unfold terminal_observation in Hk. unfold pending_observation.
      destruct (observed_status _); [|reflexivity]. now apply negb_true_iff in Hk.
Qed.

Lemma timeout_only_while_pending_witness :
  (exists w',
     get_result (Examples.always (Examples.answer 0 (Examples.status_body "IN_PROGRESS")))
       3 Examples.client0 "job-1" true 1 Examples.world0
     = Some (Raise (mk_exn TimeoutError
                      [Lit "Job did not complete within "; Fmt (JInt 1); Lit " seconds"]),
             w'))
  /\ (exists r,
        let env := Examples.scripted
                     [Examples.answer 0 (Examples.status_body "IN_QUEUE");
                      Examples.answer (1 # 2) (Examples.status_body "IN_PROGRESS")]
                     (Examples.answer (1 # 4) Examples.image_body) in
        get_result env 3 Examples.client0 "job-1" true 120 Examples.world0
          = Some (r, after_http env (status_request Examples.client0 "job-1")
                       (turn env Examples.client0 "job-1" 2 Examples.world0))
        /\ (forall e, r = Raise e -> cls e <> TimeoutError))
  /\ ((inject_Z 3 < now (turn Examples2.completes_late Examples.client0 "job-1" 2
                           Examples.world0) - now Examples.world0)%Q
      /\ exists r,
           get_result Examples2.completes_late 3 Examples.client0 "job-1" true 3
             Examples.world0
             = Some (r, after_http Examples2.completes_late
                          (status_request Examples.client0 "job-1")
                          (turn Examples2.completes_late Examples.client0 "job-1" 2
                             Examples.world0))
           /\ (forall e, r = Raise e -> cls e <> TimeoutError)).
Proof.
  split; [|split; [|split; [vm_compute; reflexivity|]]].
  - apply (timeout_only_while_pending
             (Examples.always (Examples.answer 0 (Examples.status_body "IN_PROGRESS")))
             Examples.client0 "job-1" 1 Examples.world0 2 3);
      [lia | intros i _; reflexivity | reflexivity | reflexivity].
  - destruct (timeout_only_while_pending
                (Examples.scripted
                   [Examples.answer 0 (Examples.status_body "IN_QUEUE");
                    Examples.answer (1 # 2) (Examples.status_body "IN_PROGRESS")]
                   (Examples.answer (1 # 4) Examples.image_body))
                Examples.client0 "job-1" 120 Examples.world0 2 3) as (_ & Hearly & _).
    + lia.
    + intros [|[|i]] Hi; [reflexivity | reflexivity | lia].
    + apply Hearly; [reflexivity | | reflexivity].
      intros [|[|[|n]]] rq; unfold Qle; cbn; lia.
  - destruct (timeout_only_while_pending Examples2.completes_late
                Examples.client0 "job-1" 3 Examples.world0 2 3) as (_ & _ & Hlate).
    + lia.
    + intros [|[|i]] Hi; [reflexivity | reflexivity | lia].
    + apply Hlate; [reflexivity|].
      intros [|[|i]] Hi; [discriminate | discriminate | lia].
Defined.

(** C5, as stated, fails for [get_result]: on a [COMPLETED] status whose
    output has no ["image"], [output.get("image")] is [None] and goes
    unchecked into [base64.b64decode], which raises [TypeError]. *)
Lemma get_result_missing_image_fails :
  let run := get_result (Examples.always (Examples.answer 0 Examples.completed_without_image))
               1 Examples.client0 "job-1" true 120 Examples.world0 in
  Spec.final_exception run = Some (mk_exn TypeError [])
  /\ ~ Spec.reports_missing_image (Spec.final_exception run).
Proof.
  cbv zeta.
  assert (Spec.final_exception
            (get_result (Examples.always (Examples.answer 0 Examples.completed_without_image))
               1 Examples.client0 "job-1" true 120 Examples.world0)
          = Some (mk_exn TypeError [])) as H by (vm_compute; reflexivity).
  split; [exact H|]. rewrite H. intros (e & [= <-] & Hsays). discriminate Hsays.
Qed.

(** C5, amended. In [generate_sync], an HTTP 200 answer that carries no
    error indicator and whose output has no ["image"] raises the generic
    [Exception] with the text ["No image in response: ..."]; nothing is
    returned. *)
Theorem generate_sync_missing_image (env : environment) (self : ZImageClient)
    (prompt : string) (height width steps : Z) (seed : option Z) (timeout : Z)
    (w : world) (r : response) (m output : gmap string json) :
  result (respond env (calls w) (sync_request self prompt height width steps seed timeout))
    = Responded r ->
  status_code r = 200%Z ->
  json_body r = Some (JObj m) ->
  m !! "error" = None ->
  default (JObj ∅) (m !! "output") = JObj output ->
  output !! "error" = None ->
  output !! "image" = None ->
  fst (generate_sync env self prompt height width steps seed timeout w)
    = Raise (mk_exn Exception [Lit "No image in response: "; Fmt (JObj m)]).
Proof.
  intros Hr Hc Hj Hme Ho Hoe Hoi.
  rewrite generate_sync_answer, Hr, Hc, Hj.
  cbn [negb Z.eqb Pos.eqb contains get]. rewrite Hme, Ho.
  rewrite bool_decide_eq_false_2 by (intros [? ?]; discriminate).
  cbn [contains get]. rewrite Hoe, Hoi.
  rewrite bool_decide_eq_false_2 by (intros [? ?]; discriminate).
  reflexivity.
Qed.

Lemma generate_sync_missing_image_witness :
  fst (generate_sync (Examples.always (Examples.answer 0 Examples.completed_without_image))
         Examples.client0 "sunset" 1024 1024 9 (Some 42%Z) 120 Examples.world0)
  = Raise (mk_exn Exception [Lit "No image in response: ";
                             Fmt Examples.completed_without_image]).
Proof.
  apply (generate_sync_missing_image
           (Examples.always (Examples.answer 0 Examples.completed_without_image))
           Examples.client0 "sunset" 1024 1024 9 (Some 42%Z) 120 Examples.world0
           (mk_response 200 "" (Some Examples.completed_without_image))
           (<[ "status" := JStr "COMPLETED" ]> (<[ "output" := JObj ∅ ]> ∅)) ∅);
    reflexivity.
Defined.

(** C6. When the status query is answered with a pending status
    ([IN_QUEUE] or [IN_PROGRESS]), [get_result] called with [wait=False]
    returns [None] without raising, having made exactly one status query
    and no sleep: the world it leaves is the one it found plus that query
    and its duration. *)
Theorem get_result_no_wait (env : environment) (self : ZImageClient) (job_id : string)
    (max_wait : Z) (fuel : nat) (w : world) :
  pending_observation (respond env (calls w) (status_request self job_id)) = true ->
  exists w',
    get_result env (S fuel) self job_id false max_wait w = Some (Return None, w')
    /\ trace w' = trace w ++ [EvHttp (now w) (status_request self job_id)]
    /\ http_calls (trace w') = S (http_calls (trace w))
    /\ sleeps (trace w') = sleeps (trace w).
Proof.
  intros Hp. exists (after_http env (status_request self job_id) w).
  apply pending_observation_inv in Hp as (js & Hobs & Hpend).
  split; [|split; [reflexivity|split]].
  - unfold get_result. cbn [get_result_loop].
    now rewrite (iteration_pending env self job_id false max_wait (now w) w js Hobs Hpend).
  - apply http_calls_query.
  - apply sleeps_query.
Qed.

Lemma get_result_no_wait_witness :
  exists w',
    get_result (Examples.always (Examples.answer 0 (Examples.status_body "IN_QUEUE")))
      1 Examples.client0 "job-1" false 120 Examples.world0 = Some (Return None, w')
    /\ trace w' = trace Examples.world0
                  ++ [EvHttp (now Examples.world0) (status_request Examples.client0 "job-1")]
    /\ http_calls (trace w') = S (http_calls (trace Examples.world0))
    /\ sleeps (trace w') = sleeps (trace Examples.world0).
Proof.
  apply (get_result_no_wait
           (Examples.always (Examples.answer 0 (Examples.status_body "IN_QUEUE")))
           Examples.client0 "job-1" 120 0 Examples.world0).
  vm_compute. reflexivity.
Defined.

(** C7. At any turn of the poll loop, a status answer whose status is
    none of [IN_QUEUE], [IN_PROGRESS], [COMPLETED], [FAILED] (a missing
    status included) ends [get_result] at once with
    [Exception("Unknown job status: ...")]: the world is left right after
    that query, without a sleep or a further query. *)
Theorem unknown_status_leaves_loop (env : environment) (self : ZImageClient)
    (job_id : string) (wait : bool) (max_wait : Z) (start_time : Q) (fuel : nat)
    (w : world) (job_status : json) :
  observed_status (respond env (calls w) (status_request self job_id)) = Some job_status ->
  is_known job_status = false ->
  get_result_loop env (S fuel) self job_id wait max_wait start_time w
    = Some (Raise (mk_exn Exception [Lit "Unknown job status: "; Fmt job_status]),
            after_http env (status_request self job_id) w)
  /\ trace (after_http env (status_request self job_id) w)
       = trace w ++ [EvHttp (now w) (status_request self job_id)].
Proof.
  intros Hobs Hk. split; [|reflexivity]. cbn [get_result_loop].
  now rewrite (iteration_unknown env self job_id wait max_wait start_time w job_status Hobs Hk).
Qed.

Lemma unknown_status_leaves_loop_witness :
  get_result_loop (Examples.always (Examples.answer 0 (Examples.status_body "CANCELLED")))
    5 Examples.client0 "job-1" true 120 0 Examples.world0
  = Some (Raise (mk_exn Exception [Lit "Unknown job status: "; Fmt (JStr "CANCELLED")]),
          after_http (Examples.always (Examples.answer 0 (Examples.status_body "CANCELLED")))
            (status_request Examples.client0 "job-1") Examples.world0).
Proof.
  apply (unknown_status_leaves_loop
           (Examples.always (Examples.answer 0 (Examples.status_body "CANCELLED")))
           Examples.client0 "job-1" true 120 0 4 Examples.world0 (JStr "CANCELLED"));
    vm_compute; reflexivity.
Defined.

(** C8. [health_check] never raises. Whatever the probe meets, it returns
    a boolean; that boolean is [False] when the connection fails or times
    out, and when the answer has a status outside 200..299. *)
Theorem health_check_never_raises (env : environment) (self : ZImageClient) (w : world) :
  exists b : bool,
    fst (health_check env self w) = Return b
    /\ (forall f, result (respond env (calls w) (health_request self)) = Failed f ->
          b = false)
    /\ (forall r, result (respond env (calls w) (health_request self)) = Responded r ->
          ~ (200 <= status_code r < 300)%Z -> b = false).
Proof.
  unfold health_check, try_except, bind, requests_get.
  change (mk_request GET _ _ None (Some 5%Z)) with (health_request self).
  rewrite http_eq.
  destruct (result (respond env (calls w) (health_request self))) as [r|f]; cbn.
  - exists (status_code r =? 200)%Z. split; [reflexivity|]. split; [discriminate|].
    intros r' [= <-] Hout. apply Z.eqb_neq. lia.
  - exists false. split; [reflexivity|]. split; [reflexivity|]. discriminate.
Qed.

Lemma health_check_never_raises_witness :
  fst (health_check (Examples.always Examples.server_error) Examples.client0 Examples.world0)
  = Return false.
Proof.
  destruct (health_check_never_raises (Examples.always Examples.server_error)
              Examples.client0 Examples.world0) as (b & Hb & _ & Hstatus).
  rewrite Hb. f_equal.
  apply (Hstatus (mk_response 500 "Internal Server Error" None)); [reflexivity|].
  cbn. lia.
Defined.

(** C9. Decoding is the exact inverse of encoding: for every byte string
    [data], what [base64.b64decode] (the client's decoding) makes of
    [base64.b64encode(data).decode()] (the handler's encoding) is [data]
    again. *)
Theorem b64decode_b64encode (data : list byte) :
  Py.b64decode (JStr (Base64.b64encode data)) = inr data
  /\ Base64.b64decode (Base64.b64encode data) = inr data.
Proof.
  pose proof (Base64Facts.b64decode_encoded data) as H.
  split; [|exact H]. unfold Py.b64decode. now rewrite H.
Qed.

(** C10. When the submission is answered with HTTP 200 and a JSON object,
    [generate_async] returns [result.get("id")] as it is: [None] when the
    object has no ["id"], and any value found there otherwise, with no
    check that it is a non-empty string. *)
Theorem generate_async_returns_get_id (env : environment) (self : ZImageClient)
    (prompt : string) (height width steps : Z) (seed : option Z) (w : world)
    (r : response) (m : gmap string json) :
  result (respond env (calls w) (async_request self prompt height width steps seed))
    = Responded r ->
  status_code r = 200%Z ->
  json_body r = Some (JObj m) ->
  fst (generate_async env self prompt height width steps seed w)
    = Return (default JNull (m !! "id"))
  /\ (m !! "id" = None ->
      fst (generate_async env self prompt height width steps seed w) = Return JNull).
Proof.
  intros Hr Hc Hj.
  assert (fst (generate_async env self prompt height width steps seed w)
          = Return (default JNull (m !! "id"))) as H.
  { unfold generate_async, bind, requests_post.
    change (mk_request POST _ _ _ None)
      with (async_request self prompt height width steps seed).
    rewrite http_eq, Hr, Hc. cbn [negb Z.eqb Pos.eqb]. unfold response_json.
    rewrite Hj. reflexivity. }
  split; [exact H|]. intros Hid. now rewrite H, Hid.
Qed.

Lemma generate_async_returns_get_id_witness :
  fst (generate_async (Examples.always (Examples.answer 0 (JObj ∅)))
         Examples.client0 "sunset" 1024 1024 9 (Some 42%Z) Examples.world0)
  = Return JNull.
Proof.
  destruct (generate_async_returns_get_id
              (Examples.always (Examples.answer 0 (JObj ∅)))
              Examples.client0 "sunset" 1024 1024 9 (Some 42%Z) Examples.world0
              (mk_response 200 "" (Some (JObj ∅))) ∅
              eq_refl eq_refl eq_refl) as [_ H].
  apply H. reflexivity.
Defined.

(* ===================================================================== *)
(** ** Further facts about polling                                        *)
(* ===================================================================== *)

Module PollFacts.
Import Py Net Client Run Run2 ClientFacts SubmitFacts.

Section Poll.
Variable env : environment.
Variable self : ZImageClient.
Variable job_id : string.

(** A turn ends right after its query, or after the sleep that follows
    it; only in the second case does the loop go on. *)
Lemma iteration_world (wait : bool) (max_wait : Z) (start_time : Q) (w : world) :
  let w1 := after_http env (status_request self job_id) w in
  (exists r, get_result_iteration env self job_id wait max_wait start_time w = (r, w1)
             /\ r <> Return None)
  \/ (get_result_iteration env self job_id wait max_wait start_time w
        = (Return None, after_sleep 1 w1)
      /\ wait = true
      /\ (now w1 - start_time <= inject_Z max_wait)%Q).
Proof.
  cbv zeta.
  destruct (observed_status (respond env (calls w) (status_request self job_id)))
    as [js|] eqn:Hobs.
  - destruct (is_pending js) eqn:Hp.
    + rewrite (iteration_pending env self job_id wait max_wait start_time w js Hobs Hp).
      cbv zeta. destruct wait; cbn [negb].
      * destruct (Qgtb _ _) eqn:Hlate.
        -- left. eexists. split; [reflexivity|discriminate].
        -- right. split; [reflexivity|]. split; [reflexivity|]. now apply Qgtb_false.
      * left. eexists. split; [reflexivity|discriminate].
    + destruct (iteration_terminal env self job_id wait max_wait start_time w js Hobs Hp)
        as (r & Hit & Hr).
      left. exists r. split; [exact Hit|]. intros ->. exact Hr.
  - destruct (iteration_unanswered env self job_id wait max_wait start_time w Hobs)
      as (e & Hit & _).
    left. eexists. split; [exact Hit|discriminate].
Qed.

(** More turns than needed change nothing. *)
Lemma loop_mono (wait : bool) (max_wait : Z) (start_time : Q) (fuel n : nat) :
  forall (w : world) (x : res (option Image) * world),
  get_result_loop env fuel self job_id wait max_wait start_time w = Some x ->
  get_result_loop env (fuel + n) self job_id wait max_wait start_time w = Some x.
Proof.
  induction fuel as [|fuel IH]; intros w x Hrun; [discriminate|].
  cbn [get_result_loop Nat.add] in *.
  destruct (get_result_iteration env self job_id wait max_wait start_time w)
    as [[[r|]|e] w2]; try exact Hrun.
  now apply IH.
Qed.

(** A run of the loop makes one query per turn it takes, and one sleep
    between two queries. *)
Lemma loop_counts (wait : bool) (max_wait : Z) (start_time : Q) (fuel : nat) :
  forall (w : world) (r : res (option Image)) (w' : world),
  get_result_loop env fuel self job_id wait max_wait start_time w = Some (r, w') ->
  exists evs,
    trace w' = trace w ++ evs
    /\ (http_calls evs <= fuel)%nat
    /\ http_calls evs = S (sleeps evs).
Proof.
  induction fuel as [|fuel IH]; intros w r w' Hrun; [discriminate|].
  cbn [get_result_loop] in Hrun.
  destruct (iteration_world wait max_wait start_time w) as [(r0 & Hit & Hr0)|(Hit & _ & _)];
    rewrite Hit in Hrun.
  - exists [EvHttp (now w) (status_request self job_id)].
    assert (w' = after_http env (status_request self job_id) w) as ->.
    { destruct r0 as [[x|]|e]; [| contradiction |]; now injection Hrun. }
    split; [reflexivity|]. split; [|reflexivity].
    change (http_calls [EvHttp (now w) (status_request self job_id)]) with 1%nat. lia.
  - apply IH in Hrun as (evs & Htr & Hle & Hcount).
    exists (EvHttp (now w) (status_request self job_id)
            :: EvSleep (now (after_http env (status_request self job_id) w)) 1 :: evs).
    split; [rewrite Htr; cbn; now rewrite <- !app_assoc|].
    change (EvHttp (now w) (status_request self job_id)
            :: EvSleep (now (after_http env (status_request self job_id) w)) 1 :: evs)
      with ([EvHttp (now w) (status_request self job_id);
             EvSleep (now (after_http env (status_request self job_id) w)) 1] ++ evs).
    rewrite http_calls_app, sleeps_app.
    change (http_calls [EvHttp _ _; EvSleep _ _]) with 1%nat.
    change (sleeps [EvHttp _ _; EvSleep _ _]) with 1%nat.
    lia.
Qed.

(** Pending answers within the deadline are waited out. *)
Lemma loop_skip (max_wait : Z) (start_time : Q) (k : nat) :
  forall (w : world) (fuel : nat),
  (forall i, (i < k)%nat ->
     pending_observation (respond env (calls (turn env self job_id i w))
                            (status_request self job_id)) = true) ->
  (forall i, (i < k)%nat ->
     (arrival env self job_id i w - start_time <= inject_Z max_wait)%Q) ->
  get_result_loop env (k + fuel) self job_id true max_wait start_time w
    = get_result_loop env fuel self job_id true max_wait start_time (turn env self job_id k w).
Proof.
  induction k as [|k IH]; intros w fuel Hpend Hearly; [reflexivity|].
  cbn [Nat.add]. rewrite loop_unfold_pending by (apply (Hpend 0%nat); lia).
  pose proof (Hearly 0%nat ltac:(lia)) as H0. apply Qgtb_false in H0.
  unfold arrival in H0. cbn [turn] in H0. rewrite H0. cbn [turn].
  apply IH.
  - intros i Hi. apply (Hpend (S i)). lia.
  - intros i Hi. apply (Hearly (S i)). lia.
Qed.

(** What [k] waited turns leave in the trace. *)
Lemma trace_turn (k : nat) :
  forall w : world,
  exists evs,
    trace (turn env self job_id k w) = trace w ++ evs
    /\ http_calls evs = k /\ sleeps evs = k.
Proof.
  induction k as [|k IH]; intros w.
  - exists []. cbn [turn]. now rewrite app_nil_r.
  - cbn [turn]. destruct (IH (next_turn env self job_id w)) as (evs & Htr & Hh & Hs).
    exists ([EvHttp (now w) (status_request self job_id);
             EvSleep (now (after_http env (status_request self job_id) w)) 1] ++ evs).
    split; [rewrite Htr; cbn; now rewrite <- !app_assoc|].
    rewrite http_calls_app, sleeps_app.
    change (http_calls [EvHttp _ _; EvSleep _ _]) with 1%nat.
    change (sleeps [EvHttp _ _; EvSleep _ _]) with 1%nat.
    lia.
Qed.

(** A [COMPLETED] answer that carries an image. *)
Lemma iteration_completed (wait : bool) (max_wait : Z) (start_time : Q) (w : world)
    (m output : gmap string json) (img_base64 : string) (data : list byte) :
  answered_with (respond env (calls w) (status_request self job_id)) m ->
  m !! "status" = Some (JStr "COMPLETED") ->
  m !! "output" = Some (JObj output) ->
  output !! "error" = None ->
  output !! "image" = Some (JStr img_base64) ->
  Base64.b64decode img_base64 = inr data ->
  identifiable env data = true ->
  get_result_iteration env self job_id wait max_wait start_time w
    = (Return (Some (Some (PILImage data))),
       after_http env (status_request self job_id) w).
Proof.
  intros (r & Hr & Hc & Hj) Hs Ho Hoe Hoi Hd Hid.
  unfold get_result_iteration, bind. rewrite check_status_eq, Hr, Hc, Hj.
  cbn [Z.eqb Pos.eqb lift get]. rewrite Hs, Ho. cbn [default from_option id eq_str].
  cbn [String.eqb Ascii.eqb Bool.eqb]. cbn [contains lift get]. rewrite Hoe, Hoi.
  rewrite bool_decide_eq_false_2 by (intros [? ?]; discriminate).
  cbn [default from_option id]. unfold b64decode. rewrite Hd. cbn [lift].
  unfold Image_open. now rewrite Hid.
Qed.

(** A [COMPLETED] answer whose output reports an error. *)
Lemma iteration_output_error (wait : bool) (max_wait : Z) (start_time : Q) (w : world)
    (m output : gmap string json) (err : json) :
  answered_with (respond env (calls w) (status_request self job_id)) m ->
  m !! "status" = Some (JStr "COMPLETED") ->
  m !! "output" = Some (JObj output) ->
  output !! "error" = Some err ->
  get_result_iteration env self job_id wait max_wait start_time w
    = (Raise (mk_exn Exception [Lit "Generation failed: "; Fmt err]),
       after_http env (status_request self job_id) w).
Proof.
  intros (r & Hr & Hc & Hj) Hs Ho Hoe.
  unfold get_result_iteration, bind. rewrite check_status_eq, Hr, Hc, Hj.
  cbn [Z.eqb Pos.eqb lift get]. rewrite Hs, Ho. cbn [default from_option id eq_str].
  cbn [String.eqb Ascii.eqb Bool.eqb]. cbn [contains lift getitem]. rewrite Hoe.
  rewrite bool_decide_eq_true_2 by eauto. reflexivity.
Qed.

End Poll.
End PollFacts.

(* ===================================================================== *)
(** ** Further properties of the client                                   *)
(* ===================================================================== *)

Import Run2 PollFacts.

(** X1. With answers that take no negative time, [get_result] returns or
    raises within [max_wait + 2] turns of its loop, whatever the service
    answers: it makes at most [max_wait + 2] status queries and at most
    [max_wait + 1] sleeps. *)
Theorem polling_is_bounded (env : environment) (self : ZImageClient) (job_id : string)
    (wait : bool) (max_wait : Z) (fuel : nat) (w : world) :
  nonneg_latency env ->
  (Z.to_nat max_wait + 2 <= fuel)%nat ->
  exists r w' evs,
    get_result env fuel self job_id wait max_wait w = Some (r, w')
    /\ trace w' = trace w ++ evs
    /\ (http_calls evs <= Z.to_nat max_wait + 2)%nat
    /\ (sleeps evs <= Z.to_nat max_wait + 1)%nat.
Proof.
  intros Hnn Hfuel.
  destruct (get_result_terminates env self job_id wait max_wait (Z.to_nat max_wait + 2) w
              Hnn (Nat.le_refl _)) as (r & w' & Hrun).
  unfold get_result in *.
  destruct (loop_counts env self job_id wait max_wait (now w) _ w r w' Hrun)
    as (evs & Htr & Hle & Hcount).
  exists r, w', evs. split; [|split; [exact Htr|lia]].
  replace fuel with (Z.to_nat max_wait + 2 + (fuel - (Z.to_nat max_wait + 2)))%nat by lia.
  now apply loop_mono.
Qed.

Lemma polling_is_bounded_witness :
  exists r w' evs,
    get_result (Examples.always (Examples.answer (1 # 2) (Examples.status_body "IN_QUEUE")))
      5 Examples.client0 "job-1" true 3 Examples.world0 = Some (r, w')
    /\ trace w' = trace Examples.world0 ++ evs
    /\ (http_calls evs <= Z.to_nat 3 + 2)%nat
    /\ (sleeps evs <= Z.to_nat 3 + 1)%nat.
Proof.
  apply (polling_is_bounded
           (Examples.always (Examples.answer (1 # 2) (Examples.status_body "IN_QUEUE")))
           Examples.client0 "job-1" true 3 5 Examples.world0).
  - intros n rq. unfold Qle. cbn. lia.
  - cbn. lia.
Defined.

(** X2. A job that stays pending makes [get_result] with [wait=True]
    raise [TimeoutError], within [max_wait + 2] turns of the loop. *)
Theorem pending_job_times_out (env : environment) (self : ZImageClient) (job_id : string)
    (max_wait : Z) (fuel : nat) (w : world) :
  nonneg_latency env ->
  (forall n, pending_observation (respond env n (status_request self job_id)) = true) ->
  (Z.to_nat max_wait + 2 <= fuel)%nat ->
  exists w',
    get_result env fuel self job_id true max_wait w
      = Some (Raise (mk_exn TimeoutError
                       [Lit "Job did not complete within "; Fmt (JInt max_wait);
                        Lit " seconds"]), w').
Proof.
  intros Hnn Hpend Hfuel.
  exact (get_result_times_out env self job_id max_wait fuel w Hnn Hpend Hfuel).
Qed.

Lemma pending_job_times_out_witness :
  exists w',
    get_result (Examples.always (Examples.answer (1 # 2) (Examples.status_body "IN_PROGRESS")))
      5 Examples.client0 "job-1" true 3 Examples.world0
    = Some (Raise (mk_exn TimeoutError
                     [Lit "Job did not complete within "; Fmt (JInt 3); Lit " seconds"]), w').
Proof.
  apply (pending_job_times_out
           (Examples.always (Examples.answer (1 # 2) (Examples.status_body "IN_PROGRESS")))
           Examples.client0 "job-1" 3 5 Examples.world0).
  - intros n rq. unfold Qle. cbn. lia.
  - intros n. reflexivity.
  - cbn. lia.
Defined.

(** X3. When the first [k] status queries are answered with a pending
    status, each within the deadline, and the next one with [COMPLETED]
    and an image, [get_result] with [wait=True] returns the image whose
    bytes are the decoded payload. It has then made [k + 1] queries and
    [k] sleeps, and nothing after the terminal answer. *)
Theorem get_result_returns_image (env : environment) (self : ZImageClient)
    (job_id : string) (max_wait : Z) (w : world) (k fuel : nat)
    (m output : gmap string json) (img_base64 : string) (data : list byte) :
  (k < fuel)%nat ->
  (forall i, (i < k)%nat ->
     pending_observation (respond env (calls w + i) (status_request self job_id)) = true) ->
  (forall i, (i < k)%nat ->
     (arrival env self job_id i w - now w <= inject_Z max_wait)%Q) ->
  answered_with (respond env (calls w + k) (status_request self job_id)) m ->
  m !! "status" = Some (JStr "COMPLETED") ->
  m !! "output" = Some (JObj output) ->
  output !! "error" = None ->
  output !! "image" = Some (JStr img_base64) ->
  Base64.b64decode img_base64 = inr data ->
  identifiable env data = true ->
  exists w' evs,
    get_result env fuel self job_id true max_wait w
      = Some (Return (Some (PILImage data)), w')
    /\ trace w' = trace w ++ evs
    /\ http_calls evs = S k
    /\ sleeps evs = k.
Proof.
  intros Hfuel Hpend Hearly Hans Hs Ho Hoe Hoi Hd Hid.
  exists (after_http env (status_request self job_id) (turn env self job_id k w)).
  destruct (trace_turn env self job_id k w) as (evs & Htr & Hh & Hsl).
  exists (evs ++ [EvHttp (now (turn env self job_id k w)) (status_request self job_id)]).
  split; [|split; [|split]].
  - unfold get_result.
    replace fuel with (k + S (fuel - S k))%nat by lia.
    rewrite loop_skip.
    + cbn [get_result_loop].
      rewrite (iteration_completed env self job_id true max_wait (now w) _ m output
                 img_base64 data); try assumption; [reflexivity|].
      now rewrite calls_turn.
    + intros i Hi. rewrite calls_turn. now apply Hpend.
    + exact Hearly.
  - cbn [after_http trace]. rewrite Htr. now rewrite <- app_assoc.
  - rewrite http_calls_query. lia.
  - rewrite sleeps_query. lia.
Qed.

Lemma get_result_returns_image_witness :
  let env := Examples.scripted
               [Examples.answer 0 (Examples.status_body "IN_QUEUE");
                Examples.answer (1 # 2) (Examples.status_body "IN_PROGRESS")]
               (Examples.answer (1 # 4) Examples.image_body) in
  exists w' evs,
    get_result env 3 Examples.client0 "job-1" true 120 Examples.world0
      = Some (Return (Some (PILImage Examples.png_signature)), w')
    /\ trace w' = trace Examples.world0 ++ evs
    /\ http_calls evs = 3%nat
    /\ sleeps evs = 2%nat.
Proof.
  cbv zeta.
  apply (get_result_returns_image
           (Examples.scripted
              [Examples.answer 0 (Examples.status_body "IN_QUEUE");
               Examples.answer (1 # 2) (Examples.status_body "IN_PROGRESS")]
              (Examples.answer (1 # 4) Examples.image_body))
           Examples.client0 "job-1" 120 Examples.world0 2 3
           (<[ "id" := JStr "job-1" ]>
            (<[ "status" := JStr "COMPLETED" ]>
             (<[ "output" :=
                   JObj {[ "image" := JStr (Base64.b64encode Examples.png_signature) ]} ]> ∅)))
           {[ "image" := JStr (Base64.b64encode Examples.png_signature) ]}
           (Base64.b64encode Examples.png_signature) Examples.png_signature).
  - lia.
  - intros [|[|i]] Hi; [reflexivity | reflexivity | lia].
  - intros [|[|i]] Hi; [vm_compute; discriminate | vm_compute; discriminate | lia].
  - eexists. repeat split; reflexivity.
  - reflexivity.
  - reflexivity.
  - reflexivity.
  - reflexivity.
  - vm_compute. reflexivity.
  - reflexivity.
Defined.

(** X4. At any turn of the poll loop, a [COMPLETED] answer whose output
    has an ["error"] entry makes [get_result] raise
    [Exception("Generation failed: ...")] with that entry, whether or not
    the output also carries an image, and without a further query. *)
Theorem get_result_output_error (env : environment) (self : ZImageClient)
    (job_id : string) (wait : bool) (max_wait : Z) (start_time : Q) (fuel : nat)
    (w : world) (m output : gmap string json) (err : json) :
  answered_with (respond env (calls w) (status_request self job_id)) m ->
  m !! "status" = Some (JStr "COMPLETED") ->
  m !! "output" = Some (JObj output) ->
  output !! "error" = Some err ->
  get_result_loop env (S fuel) self job_id wait max_wait start_time w
    = Some (Raise (mk_exn Exception [Lit "Generation failed: "; Fmt err]),
            after_http env (status_request self job_id) w).
Proof.
  intros Hans Hs Ho Hoe. cbn [get_result_loop].
  now rewrite (iteration_output_error env self job_id wait max_wait start_time w
                 m output err Hans Hs Ho Hoe).
Qed.

Lemma get_result_output_error_witness :
  get_result_loop (Examples.always (Examples.answer 0 Examples2.completed_with_error))
    1 Examples.client0 "job-1" true 120 0 Examples.world0
  = Some (Raise (mk_exn Exception [Lit "Generation failed: "; Fmt (JStr "CUDA out of memory")]),
          after_http (Examples.always (Examples.answer 0 Examples2.completed_with_error))
            (status_request Examples.client0 "job-1") Examples.world0).
Proof.
  apply (get_result_output_error
           (Examples.always (Examples.answer 0 Examples2.completed_with_error))
           Examples.client0 "job-1" true 120 0 0 Examples.world0
           (<[ "status" := JStr "COMPLETED" ]>
            (<[ "output" := JObj Examples2.error_and_image ]> ∅))
           Examples2.error_and_image (JStr "CUDA out of memory")).
  - eexists. repeat split; reflexivity.
  - reflexivity.
  - reflexivity.
  - reflexivity.
Defined.

(** X5. No retry: at any turn of the poll loop, a status query that
    fails ends [get_result] with that failure, right after the query. A
    connection failure leaves as the exception of [requests]; an answer
    with a status other than 200 raises
    [Exception("Status check failed: <status> - <body>")]. *)
Theorem status_query_failure_ends_polling (env : environment) (self : ZImageClient)
    (job_id : string) (wait : bool) (max_wait : Z) (start_time : Q) (fuel : nat)
    (w : world) :
  let answer := result (respond env (calls w) (status_request self job_id)) in
  let poll := get_result_loop env (S fuel) self job_id wait max_wait start_time w in
  let w1 := after_http env (status_request self job_id) w in
  (forall f, answer = Failed f ->
     poll = Some (Raise (mk_exn (RequestException f) []), w1))
  /\ (forall r, answer = Responded r -> status_code r <> 200%Z ->
        poll = Some (Raise (mk_exn Exception
                              [Lit "Status check failed: "; Fmt (JInt (status_code r));
                               Lit " - "; Fmt (JStr (text r))]), w1)).
Proof.
  cbv zeta. split.
  - intros f Hf. cbn [get_result_loop]. unfold get_result_iteration, bind.
    now rewrite check_status_eq, Hf.
  - intros r Hr Hc. cbn [get_result_loop]. unfold get_result_iteration, bind.
    rewrite check_status_eq, Hr. apply Z.eqb_neq in Hc. now rewrite Hc.
Qed.

Lemma status_query_failure_ends_polling_witness :
  get_result_loop (Examples.always Examples2.connection_refused)
    5 Examples.client0 "job-1" true 120 0 Examples.world0
    = Some (Raise (mk_exn (RequestException ConnectionError) []),
            after_http (Examples.always Examples2.connection_refused)
              (status_request Examples.client0 "job-1") Examples.world0)
  /\ get_result_loop (Examples.always Examples.server_error)
       5 Examples.client0 "job-1" true 120 0 Examples.world0
     = Some (Raise (mk_exn Exception
                      [Lit "Status check failed: "; Fmt (JInt 500); Lit " - ";
                       Fmt (JStr "Internal Server Error")]),
             after_http (Examples.always Examples.server_error)
               (status_request Examples.client0 "job-1") Examples.world0).
Proof.
  split.
  - pose proof (status_query_failure_ends_polling
                  (Examples.always Examples2.connection_refused)
                  Examples.client0 "job-1" true 120 0 4 Examples.world0) as H.
    cbv zeta in H. destruct H as [H _]. apply (H ConnectionError). reflexivity.
  - pose proof (status_query_failure_ends_polling
                  (Examples.always Examples.server_error)
                  Examples.client0 "job-1" true 120 0 4 Examples.world0) as H.
    cbv zeta in H. destruct H as [_ H].
    apply (H (mk_response 500 "Internal Server Error" None)); [reflexivity|discriminate].
Defined.

(** X6. With [wait=False], [get_result] makes exactly one status query
    and never sleeps, whatever the service answers; it returns or raises
    after one turn, and never raises [TimeoutError]. *)
Theorem get_result_without_wait (env : environment) (self : ZImageClient)
    (job_id : string) (max_wait : Z) (fuel : nat) (w : world) :
  exists r,
    get_result env (S fuel) self job_id false max_wait w
      = Some (r, after_http env (status_request self job_id) w)
    /\ trace (after_http env (status_request self job_id) w)
         = trace w ++ [EvHttp (now w) (status_request self job_id)]
    /\ (forall e, r = Raise e -> cls e <> TimeoutError).
Proof.
  unfold get_result. cbn [get_result_loop].
  destruct (observed_status (respond env (calls w) (status_request self job_id)))
    as [js|] eqn:Hobs.
  - destruct (is_pending js) eqn:Hp.
    + rewrite (iteration_pending env self job_id false max_wait (now w) w js Hobs Hp).
      cbn. eexists. split; [reflexivity|]. split; [reflexivity|]. discriminate.
    + destruct (iteration_terminal env self job_id false max_wait (now w) w js Hobs Hp)
        as (r0 & -> & Hr0).
      destruct r0 as [[x|]|e0]; cbn in Hr0; [| contradiction |];
        (eexists; split; [reflexivity|]; split; [reflexivity|]).
      * discriminate.
      * now intros e [= <-].
  - destruct (iteration_unanswered env self job_id false max_wait (now w) w Hobs)
      as (e0 & -> & He0).
    eexists. split; [reflexivity|]. split; [reflexivity|]. now intros e [= <-].
Qed.

(* ===================================================================== *)
(** ** Further facts about the submissions and the probe                  *)
(* ===================================================================== *)

Module SubmitFacts2.
Import Py Net Client Run Run2 ClientFacts SubmitFacts.

Lemma prefix_append (s t : string) : String.prefix s (s +:+ t) = true.
Proof.
  induction s as [|c s IH].
  - now destruct t.
  - change (String c s +:+ t) with (String c (s +:+ t)). simpl String.prefix.
    destruct (Ascii.ascii_dec c c) as [_|Hne]; [exact IH|contradiction].
Qed.

Lemma authorised_init (endpoint_id api_key path : string) (m : http_method)
    (body : option json) (timeout : option Z) :
  authorised endpoint_id api_key
    (mk_request m (base_url (__init__ endpoint_id api_key) +:+ path)
       (headers (__init__ endpoint_id api_key)) body timeout).
Proof.
  unfold authorised, __init__. cbn [url req_headers base_url headers].
  split; [apply prefix_append|]. split.
  - rewrite lookup_insert_ne by discriminate. apply lookup_insert_eq.
  - apply lookup_insert_eq.
Qed.

(** Every query of a run of the poll loop is the status request. *)
Lemma polled_requests (start_time : Q) (max_wait : Z) (rq : request) (t : Q)
    (evs : list event) :
  polled start_time max_wait rq t evs ->
  forall t' rq', In (EvHttp t' rq') evs -> rq' = rq.
Proof.
  induction 1 as [t|t checked evs Hle Hp IH]; intros t' rq' Hin.
  - destruct Hin as [[= _ <-]|[]]. reflexivity.
  - destruct Hin as [[= _ <-]|[Hin|Hin]]; [reflexivity|discriminate Hin|].
    now apply (IH t' rq').
Qed.

Lemma health_check_eq (env : environment) (self : ZImageClient) (w : world) :
  health_check env self w =
    (Return (match result (respond env (calls w) (health_request self)) with
             | Responded r => (status_code r =? 200)%Z
             | Failed _ => false
             end),
     after_http env (health_request self) w).
Proof.
  unfold health_check, try_except, bind, requests_get.
  change (mk_request GET _ _ None (Some 5%Z)) with (health_request self).
  rewrite http_eq. now destruct (result _).
Qed.

Lemma generate_async_answer (env : environment) (self : ZImageClient)
    (prompt : string) (height width steps : Z) (seed : option Z) (w : world) :
  fst (generate_async env self prompt height width steps seed w) =
    match result (respond env (calls w)
                    (async_request self prompt height width steps seed)) with
    | Failed f => Raise (mk_exn (RequestException f) [])
    | Responded r =>
        if negb (status_code r =? 200)%Z then
          Raise (mk_exn Exception
                   [Lit "API request failed: "; Fmt (JInt (status_code r));
                    Lit " - "; Fmt (JStr (text r))])
        else
          match json_body r with
          | None => Raise (mk_exn JSONDecodeError [])
          | Some (JObj m) => Return (default JNull (m !! "id"))
          | Some _ => Raise (mk_exn AttributeError [])
          end
    end.
Proof.
  unfold generate_async, bind, requests_post.
  change (mk_request POST _ _ _ None)
    with (async_request self prompt height width steps seed).
  rewrite http_eq.
  destruct (result _) as [r|f]; [|reflexivity].
  destruct (negb (status_code r =? 200)%Z); [reflexivity|].
  unfold response_json. destruct (json_body r) as [[| | | | |m]|]; reflexivity.
Qed.

End SubmitFacts2.

Import SubmitFacts2.

(** X7. [generate_sync] returns an image in one case only: the answer has
    status 200, its body is a JSON object without an ["error"] entry,
    whose output is an object without an ["error"] entry and with a
    non-empty string under ["image"] that base64-decodes to bytes [PIL]
    recognises; the image returned is made of exactly those bytes. In
    every other case it raises. *)
Theorem generate_sync_returns_iff (env : environment) (self : ZImageClient)
    (prompt : string) (height width steps : Z) (seed : option Z) (timeout : Z)
    (w : world) (data : list byte) :
  fst (generate_sync env self prompt height width steps seed timeout w)
    = Return (PILImage data)
  <->
  exists (m output : gmap string json) (img_base64 : string),
    answered_with
      (respond env (calls w) (sync_request self prompt height width steps seed timeout)) m
    /\ m !! "error" = None
    /\ default (JObj ∅) (m !! "output") = JObj output
    /\ output !! "error" = None
    /\ output !! "image" = Some (JStr img_base64)
    /\ img_base64 <> ""
    /\ Base64.b64decode img_base64 = inr data
    /\ identifiable env data = true.
Proof.
  rewrite generate_sync_answer. split.
  - intros H.
    destruct (result _) as [r|f] eqn:Hr; [|discriminate H].
    destruct (status_code r =? 200)%Z eqn:Hc; cbn [negb] in H; [|discriminate H].
    apply Z.eqb_eq in Hc.
    destruct (json_body r) as [body|] eqn:Hj; [|discriminate H].
    destruct body as [| | |s|l|m]; cbn [contains get getitem] in H; try discriminate H.
    { destruct (substring_of "error" s); discriminate H. }
    { destruct (existsb _ l); discriminate H. }
    destruct (m !! "error") as [v|] eqn:Hme.
    { rewrite bool_decide_eq_true_2 in H by eauto. discriminate H. }
    rewrite bool_decide_eq_false_2 in H by (intros [? ?]; discriminate).
    destruct (default (JObj ∅) (m !! "output")) as [| | |s|l|output] eqn:Ho;
      cbn [contains get getitem] in H; try discriminate H.
    { destruct (substring_of "error" s); discriminate H. }
    { destruct (existsb _ l); discriminate H. }
    destruct (output !! "error") as [v|] eqn:Hoe.
    { rewrite bool_decide_eq_true_2 in H by eauto. discriminate H. }
    rewrite bool_decide_eq_false_2 in H by (intros [? ?]; discriminate).
    destruct (output !! "image") as [img|] eqn:Hoi; cbn [default from_option id] in H;
      [|discriminate H].
    destruct (truthy img) eqn:Ht; cbn [negb] in H; [|discriminate H].
    destruct img as [| | |s| |]; cbn [b64decode] in H; try discriminate H.
    destruct (Base64.b64decode s) as [[|]|bs] eqn:Hd; try discriminate H.
    destruct (identifiable env bs) eqn:Hid; [|discriminate H].
    injection H as <-.
    exists m, output, s. split; [now exists r|]. repeat split; try assumption.
    intros ->. discriminate Ht.
  - intros (m & output & s & (r & Hr & Hc & Hj) & Hme & Ho & Hoe & Hoi & Hne & Hd & Hid).
    rewrite Hr, Hc, Hj. cbn [negb Z.eqb Pos.eqb contains get]. rewrite Hme, Ho.
    rewrite bool_decide_eq_false_2 by (intros [? ?]; discriminate).
    cbn [contains get]. rewrite Hoe, Hoi.
    rewrite bool_decide_eq_false_2 by (intros [? ?]; discriminate).
    cbn [default from_option id truthy].
    apply String.eqb_neq in Hne. rewrite Hne. cbn [negb b64decode].
    now rewrite Hd, Hid.
Qed.

(** X8. [generate_async] returns in one case only: the answer has status
    200 and its body is a JSON object; the value returned is then the
    ["id"] entry of that object, or [None]. In every other case (a
    connection failure, another status, a body that is not JSON or not an
    object) it raises. *)
Theorem generate_async_returns_iff (env : environment) (self : ZImageClient)
    (prompt : string) (height width steps : Z) (seed : option Z) (w : world)
    (job_id : json) :
  fst (generate_async env self prompt height width steps seed w) = Return job_id
  <->
  exists m : gmap string json,
    answered_with
      (respond env (calls w) (async_request self prompt height width steps seed)) m
    /\ job_id = default JNull (m !! "id").
Proof.
  rewrite generate_async_answer. split.
  - intros H.
    destruct (result _) as [r|f] eqn:Hr; [|discriminate H].
    destruct (status_code r =? 200)%Z eqn:Hc; cbn [negb] in H; [|discriminate H].
    apply Z.eqb_eq in Hc.
    destruct (json_body r) as [[| | | | |m]|] eqn:Hj; try discriminate H.
    injection H as <-. exists m. split; [now exists r|reflexivity].
  - intros (m & (r & Hr & Hc & Hj) & ->). now rewrite Hr, Hc, Hj.
Qed.

(** X9. Every HTTP call made through a client built by [__init__] goes to
    a URL under ["https://api.runpod.ai/v2/<endpoint_id>"] and carries the
    headers [Authorization: Bearer <api_key>] and
    [Content-Type: application/json]: the call of [generate_sync], the one
    of [generate_async], the one of [health_check], and every status query
    of [get_result]. *)
Theorem requests_carry_credentials (env : environment) (endpoint_id api_key : string)
    (prompt : string) (height width steps : Z) (seed : option Z) (timeout : Z)
    (job_id : string) (wait : bool) (max_wait : Z) (fuel : nat) (w : world) :
  let self := __init__ endpoint_id api_key in
  (forall evs,
     trace (snd (generate_sync env self prompt height width steps seed timeout w))
       = trace w ++ evs ->
     all_authorised endpoint_id api_key evs)
  /\ (forall evs,
        trace (snd (generate_async env self prompt height width steps seed w))
          = trace w ++ evs ->
        all_authorised endpoint_id api_key evs)
  /\ (forall evs,
        trace (snd (health_check env self w)) = trace w ++ evs ->
        all_authorised endpoint_id api_key evs)
  /\ (forall r w' evs,
        get_result env fuel self job_id wait max_wait w = Some (r, w') ->
        trace w' = trace w ++ evs ->
        all_authorised endpoint_id api_key evs).
Proof.
  cbv zeta. split; [|split; [|split]].
  - intros evs Htr. rewrite generate_sync_world in Htr.
    cbn [after_http after_print trace now calls] in Htr.
    rewrite <- app_assoc in Htr. apply app_inv_head in Htr. subst evs.
    intros t rq [Hin|[[= _ <-]|[]]]; [discriminate Hin|].
    apply authorised_init.
  - intros evs Htr. rewrite generate_async_world in Htr.
    cbn [after_http trace] in Htr. apply app_inv_head in Htr. subst evs.
    intros t rq [[= _ <-]|[]]. apply authorised_init.
  - intros evs Htr. rewrite health_check_eq in Htr.
    cbn [snd after_http trace] in Htr. apply app_inv_head in Htr. subst evs.
    intros t rq [[= _ <-]|[]]. apply authorised_init.
  - intros r w' evs Hrun Htr. unfold get_result in Hrun.
    destruct (loop_trace env (__init__ endpoint_id api_key) job_id wait max_wait (now w)
                fuel w r w' Hrun) as (evs' & Htr' & Hpolled & _).
    rewrite Htr' in Htr. apply app_inv_head in Htr. subst evs'.
    intros t rq Hin.
    rewrite (polled_requests _ _ _ _ _ Hpolled t rq Hin).
    apply authorised_init.
Qed.

(** X10. [health_check] answers [True] exactly when the probe is answered
    with status 200; any other answer, a 204 for one, gives [False]. It
    makes one GET of [/health] with a timeout of 5 seconds and nothing
    else. *)
Theorem health_check_true_iff (env : environment) (self : ZImageClient) (w : world) :
  (fst (health_check env self w) = Return true
   <-> exists r, result (respond env (calls w) (health_request self)) = Responded r
                 /\ status_code r = 200%Z)
  /\ snd (health_check env self w) = after_http env (health_request self) w
  /\ trace (snd (health_check env self w)) = trace w ++ [EvHttp (now w) (health_request self)].
Proof.
  rewrite health_check_eq. cbn [fst snd]. split; [|split; reflexivity].
  destruct (result _) as [r|f]; split.
  - intros [= H]. exists r. split; [reflexivity|now apply Z.eqb_eq].
  - intros (r' & [= <-] & Hc). now rewrite Hc.
  - discriminate.
  - intros (r' & Hr & _). discriminate Hr.
Qed.

Lemma generate_sync_returns_iff_witness :
  fst (generate_sync (Examples.always (Examples.answer 0 Examples.image_body))
         Examples.client0 "sunset" 1024 1024 9 (Some 42%Z) 120 Examples.world0)
  = Return (PILImage Examples.png_signature).
Proof.
  apply (proj2 (generate_sync_returns_iff
                  (Examples.always (Examples.answer 0 Examples.image_body))
                  Examples.client0 "sunset" 1024 1024 9 (Some 42%Z) 120 Examples.world0
                  Examples.png_signature)).
  exists (<[ "id" := JStr "job-1" ]>
          (<[ "status" := JStr "COMPLETED" ]>
           (<[ "output" :=
                 JObj {[ "image" := JStr (Base64.b64encode Examples.png_signature) ]} ]> ∅))),
         {[ "image" := JStr (Base64.b64encode Examples.png_signature) ]},
         (Base64.b64encode Examples.png_signature).
  split; [eexists; repeat split; reflexivity|].
  repeat split; try reflexivity. discriminate.
Defined.

Lemma generate_async_returns_iff_witness :
  fst (generate_async (Examples.always (Examples.answer 0 Examples.image_body))
         Examples.client0 "sunset" 1024 1024 9 (Some 42%Z) Examples.world0)
  = Return (JStr "job-1").
Proof.
  apply (proj2 (generate_async_returns_iff
                  (Examples.always (Examples.answer 0 Examples.image_body))
                  Examples.client0 "sunset" 1024 1024 9 (Some 42%Z) Examples.world0
                  (JStr "job-1"))).
  exists (<[ "id" := JStr "job-1" ]>
          (<[ "status" := JStr "COMPLETED" ]>
           (<[ "output" :=
                 JObj {[ "image" := JStr (Base64.b64encode Examples.png_signature) ]} ]> ∅))).
  split; [eexists; repeat split; reflexivity|reflexivity].
Defined.

Lemma requests_carry_credentials_witness :
  exists r w' evs,
    get_result (Examples.always (Examples.answer 0 (Examples.status_body "IN_QUEUE")))
      5 (__init__ "ep-1" "secret") "job-1" true 1 Examples.world0 = Some (r, w')
    /\ trace w' = trace Examples.world0 ++ evs
    /\ all_authorised "ep-1" "secret" evs.
Proof.
  eexists _, _, _. split; [vm_compute; reflexivity|]. split; [reflexivity|].
  pose proof (requests_carry_credentials
                (Examples.always (Examples.answer 0 (Examples.status_body "IN_QUEUE")))
                "ep-1" "secret" "sunset" 1024 1024 9 None 120 "job-1" true 1 5
                Examples.world0) as H.
  cbv zeta in H. destruct H as (_ & _ & _ & H).
  eapply H; [vm_compute; reflexivity|reflexivity].
Defined.

Lemma health_check_true_iff_witness :
  fst (health_check (Examples.always (Examples.answer 0 (JObj ∅)))
         Examples.client0 Examples.world0) = Return true.
Proof.
  destruct (health_check_true_iff (Examples.always (Examples.answer 0 (JObj ∅)))
              Examples.client0 Examples.world0) as (H & _).
  apply (proj2 H). exists (mk_response 200 "" (Some (JObj ∅))). split; reflexivity.
Defined.

(* ===================================================================== *)
(** ** Further properties of the handler                                  *)
(* ===================================================================== *)

Module HandlerFacts.
Import Py Handler.

Section Facts.
Variable pipe : string -> Z -> Z -> Z -> option Z -> (string * string) + list byte.

Lemma truthy_str (s : string) : truthy (JStr s) = true <-> s <> "".
Proof.
  cbn. rewrite negb_true_iff. apply String.eqb_neq.
Qed.

(** The request passes both checks. *)
Lemma generate_image_checked (job : job_input) :
  default "" (in_prompt job) <> "" ->
  (default 1024 (in_height job) mod 8 = 0)%Z ->
  (default 1024 (in_width job) mod 8 = 0)%Z ->
  generate_image pipe job =
    match pipe (default "" (in_prompt job)) (default 1024%Z (in_height job))
               (default 1024%Z (in_width job)) (default 9%Z (in_num_inference_steps job))
               (in_seed job) with
    | inr buffered =>
        JObj (<[ "image" := JStr (Base64.b64encode buffered) ]>
             (<[ "format" := JStr "base64" ]>
             (<[ "prompt" := JStr (default "" (in_prompt job)) ]>
             (<[ "seed" := match in_seed job with Some z => JInt z | None => JNull end ]>
             (<[ "height" := JInt (default 1024%Z (in_height job)) ]>
             (<[ "width" := JInt (default 1024%Z (in_width job)) ]> ∅))))))
    | inl (e, traceback) =>
        JObj (<[ "error" := JStr e ]> (<[ "traceback" := JStr traceback ]> ∅))
    end.
Proof.
  intros Hp Hh Hw. unfold generate_image.
  apply truthy_str in Hp. rewrite Hp, Hh, Hw. reflexivity.
Qed.

(** The request fails one of the checks. *)
Lemma generate_image_refusal (job : job_input) :
  default "" (in_prompt job) = ""
  \/ (default 1024 (in_height job) mod 8 <> 0)%Z
  \/ (default 1024 (in_width job) mod 8 <> 0)%Z ->
  generate_image pipe job =
    JObj {[ "error" := JStr (if String.eqb (default "" (in_prompt job)) ""
                             then "No prompt provided"
                             else "Height and width must be multiples of 8") ]}.
Proof.
  intros Hbad. unfold generate_image.
  destruct (String.eqb_spec (default "" (in_prompt job)) "") as [->|Hne]; [reflexivity|].
  apply truthy_str in Hne. rewrite Hne. cbn [negb].
  destruct Hbad as [Hempty|Hdim]; [now apply truthy_str in Hne|].
  assert (negb (default 1024 (in_height job) mod 8 =? 0)%Z
          || negb (default 1024 (in_width job) mod 8 =? 0)%Z = true) as ->.
  { apply orb_true_iff. destruct Hdim as [H|H]; [left|right];
      now apply negb_true_iff, Z.eqb_neq. }
  reflexivity.
Qed.

End Facts.
End HandlerFacts.

(** X11. [generate_image] checks the request before it runs the model,
    the prompt first: an empty or absent prompt is answered with
    ["No prompt provided"] whatever the dimensions, and a non-empty prompt
    with a height or width that is not a multiple of 8 with
    ["Height and width must be multiples of 8"]. Neither answer depends on
    the model. *)
Theorem generate_image_checks_first
    (pipe : string -> Z -> Z -> Z -> option Z -> (string * string) + list byte)
    (job : Handler.job_input) :
  (default "" (Handler.in_prompt job) = "" ->
   Handler.generate_image pipe job = JObj {[ "error" := JStr "No prompt provided" ]})
  /\ (default "" (Handler.in_prompt job) <> "" ->
      (default 1024 (Handler.in_height job) mod 8 <> 0)%Z
      \/ (default 1024 (Handler.in_width job) mod 8 <> 0)%Z ->
      Handler.generate_image pipe job
        = JObj {[ "error" := JStr "Height and width must be multiples of 8" ]}).
Proof.
  unfold Handler.generate_image. split.
  - intros ->. reflexivity.
  - intros Hp Hdim. apply HandlerFacts.truthy_str in Hp. rewrite Hp. cbn [negb].
    assert (negb (default 1024 (Handler.in_height job) mod 8 =? 0)%Z
            || negb (default 1024 (Handler.in_width job) mod 8 =? 0)%Z = true) as ->.
    { apply orb_true_iff. destruct Hdim as [H|H]; [left|right];
        now apply negb_true_iff, Z.eqb_neq. }
    reflexivity.
Qed.

Lemma generate_image_checks_first_witness :
  Handler.generate_image Examples2.pipe_png
    (Handler.mk_job_input None (Some 1023%Z) None None None)
    = JObj {[ "error" := JStr "No prompt provided" ]}
  /\ Handler.generate_image Examples2.pipe_png
       (Handler.mk_job_input (Some "sunset") (Some 1023%Z) None None None)
     = JObj {[ "error" := JStr "Height and width must be multiples of 8" ]}.
Proof.
  split.
  - apply (generate_image_checks_first Examples2.pipe_png
             (Handler.mk_job_input None (Some 1023%Z) None None None)).
    reflexivity.
  - apply (generate_image_checks_first Examples2.pipe_png
             (Handler.mk_job_input (Some "sunset") (Some 1023%Z) None None None)).
    + discriminate.
    + left. vm_compute. discriminate.
Defined.

(** X12. The dimension check of [generate_image] asks for multiples of 8
    and for nothing else: with a non-empty prompt, any height and width
    that are multiples of 8, zero and negative ones included, reach the
    model as they are, together with the steps and the seed; absent
    fields reach it as 1024, 1024 and 9. *)
Theorem generate_image_runs_model
    (pipe : string -> Z -> Z -> Z -> option Z -> (string * string) + list byte)
    (job : Handler.job_input) :
  let prompt := default "" (Handler.in_prompt job) in
  let height := default 1024%Z (Handler.in_height job) in
  let width := default 1024%Z (Handler.in_width job) in
  let steps := default 9%Z (Handler.in_num_inference_steps job) in
  prompt <> "" ->
  (height mod 8 = 0)%Z ->
  (width mod 8 = 0)%Z ->
  (forall buffered, pipe prompt height width steps (Handler.in_seed job) = inr buffered ->
     Handler.generate_image pipe job
       = JObj (<[ "image" := JStr (Base64.b64encode buffered) ]>
              (<[ "format" := JStr "base64" ]>
              (<[ "prompt" := JStr prompt ]>
              (<[ "seed" := match Handler.in_seed job with
                            | Some z => JInt z
                            | None => JNull
                            end ]>
              (<[ "height" := JInt height ]>
              (<[ "width" := JInt width ]> ∅)))))))
  /\ (forall e traceback,
        pipe prompt height width steps (Handler.in_seed job) = inl (e, traceback) ->
        Handler.generate_image pipe job
          = JObj (<[ "error" := JStr e ]> (<[ "traceback" := JStr traceback ]> ∅))).
Proof.
  cbv zeta. intros Hp Hh Hw.
  rewrite (HandlerFacts.generate_image_checked pipe job Hp Hh Hw).
  split.
  - intros buffered ->. reflexivity.
  - intros e traceback ->. reflexivity.
Qed.

Lemma generate_image_runs_model_witness :
  Handler.generate_image Examples2.pipe_png
    (Handler.mk_job_input (Some "sunset") (Some 0%Z) (Some (-8)%Z) None None)
  = JObj (<[ "image" := JStr (Base64.b64encode Examples.png_signature) ]>
         (<[ "format" := JStr "base64" ]>
         (<[ "prompt" := JStr "sunset" ]>
         (<[ "seed" := JNull ]>
         (<[ "height" := JInt 0 ]>
         (<[ "width" := JInt (-8) ]> ∅)))))).
Proof.
  pose proof (generate_image_runs_model Examples2.pipe_png
                (Handler.mk_job_input (Some "sunset") (Some 0%Z) (Some (-8)%Z) None None)) as H.
  cbv zeta in H.
  destruct H as [H _]; [discriminate | reflexivity | reflexivity |].
  apply (H Examples.png_signature). reflexivity.
Defined.

(** X13. Whatever the request and the model do, [generate_image] returns
    a JSON object that has an ["error"] entry or an ["image"] entry, never
    both and never neither; and when it has an image, that image is a
    string that base64-decodes to the very bytes the model call left in
    [buffered]. *)
Theorem generate_image_error_or_image
    (pipe : string -> Z -> Z -> Z -> option Z -> (string * string) + list byte)
    (job : Handler.job_input) :
  exists m : gmap string json,
    Handler.generate_image pipe job = JObj m
    /\ ((is_Some (m !! "error") /\ m !! "image" = None)
        \/ (m !! "error" = None
            /\ exists buffered,
                 pipe (default "" (Handler.in_prompt job))
                      (default 1024%Z (Handler.in_height job))
                      (default 1024%Z (Handler.in_width job))
                      (default 9%Z (Handler.in_num_inference_steps job))
                      (Handler.in_seed job) = inr buffered
                 /\ m !! "image" = Some (JStr (Base64.b64encode buffered))
                 /\ Py.b64decode (JStr (Base64.b64encode buffered)) = inr buffered)).
Proof.
  unfold Handler.generate_image.
  destruct (negb (truthy (JStr (default "" (Handler.in_prompt job))))).
  { eexists. split; [reflexivity|]. left. split; [|reflexivity].
    rewrite lookup_singleton_eq. eauto. }
  destruct (negb (default 1024 (Handler.in_height job) mod 8 =? 0)%Z
            || negb (default 1024 (Handler.in_width job) mod 8 =? 0)%Z).
  { eexists. split; [reflexivity|]. left. split; [|reflexivity].
    rewrite lookup_singleton_eq. eauto. }
  destruct (pipe _ _ _ _ _) as [[e traceback]|buffered] eqn:Hpipe.
  - eexists. split; [reflexivity|]. left. split.
    + rewrite lookup_insert_eq. eauto.
    + rewrite !lookup_insert_ne by discriminate. apply lookup_empty.
  - eexists. split; [reflexivity|]. right. split.
    + rewrite !lookup_insert_ne by discriminate. apply lookup_empty.
    + exists buffered. split; [reflexivity|]. split; [apply lookup_insert_eq|].
      unfold Py.b64decode. now rewrite Base64Facts.b64decode_encoded.
Qed.

(** X14. A successful answer of [generate_image] echoes the request: its
    ["prompt"], ["height"], ["width"] and ["seed"] entries are the ones
    the model was run with (1024 for an absent height or width, [None] for
    an absent seed), and its ["format"] is ["base64"]. *)
Theorem generate_image_echoes_request
    (pipe : string -> Z -> Z -> Z -> option Z -> (string * string) + list byte)
    (job : Handler.job_input) (m : gmap string json) :
  Handler.generate_image pipe job = JObj m ->
  m !! "error" = None ->
  m !! "format" = Some (JStr "base64")
  /\ m !! "prompt" = Some (JStr (default "" (Handler.in_prompt job)))
  /\ m !! "height" = Some (JInt (default 1024%Z (Handler.in_height job)))
  /\ m !! "width" = Some (JInt (default 1024%Z (Handler.in_width job)))
  /\ m !! "seed" = Some (PyOps.of_optional_int (Handler.in_seed job)).
Proof.
  unfold Handler.generate_image.
  destruct (negb (truthy (JStr (default "" (Handler.in_prompt job))))).
  { intros [= <-] H. rewrite lookup_singleton_eq in H. discriminate H. }
  destruct (negb (default 1024 (Handler.in_height job) mod 8 =? 0)%Z
            || negb (default 1024 (Handler.in_width job) mod 8 =? 0)%Z).
  { intros [= <-] H. rewrite lookup_singleton_eq in H. discriminate H. }
  destruct (pipe _ _ _ _ _) as [[e traceback]|buffered].
  - intros [= <-] H. rewrite lookup_insert_eq in H. discriminate H.
  - intros [= <-] _.
    repeat split;
      repeat (first [ apply lookup_insert_eq
                    | rewrite lookup_insert_ne by discriminate ]).
Qed.

Lemma generate_image_echoes_request_witness :
  let m : gmap string json := <[ "image" := JStr (Base64.b64encode Examples.png_signature) ]>
           (<[ "format" := JStr "base64" ]>
           (<[ "prompt" := JStr "sunset" ]>
           (<[ "seed" := JNull ]>
           (<[ "height" := JInt 1024 ]>
           (<[ "width" := JInt 768 ]> ∅))))) in
  m !! "format" = Some (JStr "base64")
  /\ m !! "prompt" = Some (JStr "sunset")
  /\ m !! "height" = Some (JInt 1024)
  /\ m !! "width" = Some (JInt 768)
  /\ m !! "seed" = Some JNull.
Proof.
  cbv zeta.
  apply (generate_image_echoes_request Examples2.pipe_png
           (Handler.mk_job_input (Some "sunset") None (Some 768%Z) None None));
    reflexivity.
Defined.

(** X15. What the handler refuses, the client raises after the call:
    when the request has an empty prompt, or a height or width that is not
    a multiple of 8, and the service answers the synchronous call with the
    payload of [generate_image] as its output, [generate_sync] raises
    [Exception("Generation failed: ...")] with the handler's message. *)
Theorem generate_sync_raises_handler_refusal (env : environment) (self : ZImageClient)
    (prompt : string) (height width steps : Z) (seed : option Z) (timeout : Z)
    (w : world) (r : response)
    (pipe : string -> Z -> Z -> Z -> option Z -> (string * string) + list byte) :
  let job := Handler.mk_job_input (Some prompt) (Some height) (Some width) (Some steps) seed in
  result (respond env (calls w) (sync_request self prompt height width steps seed timeout))
    = Responded r ->
  status_code r = 200%Z ->
  json_body r = Some (JObj {[ "output" := Handler.generate_image pipe job ]}) ->
  prompt = "" \/ (height mod 8 <> 0)%Z \/ (width mod 8 <> 0)%Z ->
  fst (generate_sync env self prompt height width steps seed timeout w)
    = Raise (mk_exn Exception
               [Lit "Generation failed: ";
                Fmt (JStr (if String.eqb prompt ""
                           then "No prompt provided"
                           else "Height and width must be multiples of 8"))]).
Proof.
  intros job Hr Hc Hj Hbad.
  assert (Handler.generate_image pipe job
          = JObj {[ "error" := JStr (if String.eqb prompt ""
                                      then "No prompt provided"
                                      else "Height and width must be multiples of 8") ]})
    as Hgen.
  { apply (HandlerFacts.generate_image_refusal pipe job). exact Hbad. }
  rewrite Hgen in Hj.
  rewrite generate_sync_answer, Hr, Hc, Hj.
  cbn [negb Z.eqb Pos.eqb contains get].
  rewrite bool_decide_eq_false_2
    by (rewrite lookup_singleton_ne by discriminate; now intros [? ?]).
  rewrite lookup_singleton_eq. cbn [default from_option id contains getitem].
  rewrite bool_decide_eq_true_2 by (rewrite lookup_singleton_eq; eauto).
  now rewrite lookup_singleton_eq.
Qed.

Lemma generate_sync_raises_handler_refusal_witness :
  fst (generate_sync
         (Examples.always
            (Examples2.runsync_answer
               (Handler.generate_image Examples2.pipe_png
                  (Handler.mk_job_input (Some "sunset") (Some 1023%Z) (Some 1024%Z)
                     (Some 9%Z) None))))
         Examples.client0 "sunset" 1023 1024 9 None 120 Examples.world0)
  = Raise (mk_exn Exception
             [Lit "Generation failed: "; Fmt (JStr "Height and width must be multiples of 8")]).
Proof.
  apply (generate_sync_raises_handler_refusal
           (Examples.always
              (Examples2.runsync_answer
                 (Handler.generate_image Examples2.pipe_png
                    (Handler.mk_job_input (Some "sunset") (Some 1023%Z) (Some 1024%Z)
                       (Some 9%Z) None))))
           Examples.client0 "sunset" 1023 1024 9 None 120 Examples.world0
           (mk_response 200 ""
              (Some (JObj {[ "output" :=
                               Handler.generate_image Examples2.pipe_png
                                 (Handler.mk_job_input (Some "sunset") (Some 1023%Z)
                                    (Some 1024%Z) (Some 9%Z) None) ]})))
           Examples2.pipe_png).
  - reflexivity.
  - reflexivity.
  - reflexivity.
  - right. left. vm_compute. discriminate.
Defined.

(** X16. What the handler embeds, the client reads back. When
    [generate_image] succeeds with the PNG [buffered] and the service
    hands its payload on as the output of the job, [generate_sync] (for a
    non-empty [buffered]) and the poll loop of [get_result] (on the
    [COMPLETED] answer) each return the image made of exactly the bytes of
    [buffered]. *)
Theorem client_reads_back_handler_image (env : environment) (self : ZImageClient)
    (prompt : string) (height width steps : Z) (seed : option Z) (timeout : Z)
    (job_id : string) (wait : bool) (max_wait : Z) (start_time : Q) (fuel : nat)
    (w : world)
    (pipe : string -> Z -> Z -> Z -> option Z -> (string * string) + list byte)
    (buffered : list byte) :
  let job := Handler.mk_job_input (Some prompt) (Some height) (Some width) (Some steps) seed in
  prompt <> "" -> (height mod 8 = 0)%Z -> (width mod 8 = 0)%Z ->
  pipe prompt height width steps seed = inr buffered ->
  identifiable env buffered = true ->
  (forall r,
     result (respond env (calls w) (sync_request self prompt height width steps seed timeout))
       = Responded r ->
     status_code r = 200%Z ->
     json_body r = Some (JObj {[ "output" := Handler.generate_image pipe job ]}) ->
     buffered <> [] ->
     fst (generate_sync env self prompt height width steps seed timeout w)
       = Return (PILImage buffered))
  /\ (forall m,
        answered_with (respond env (calls w) (status_request self job_id)) m ->
        m !! "status" = Some (JStr "COMPLETED") ->
        m !! "output" = Some (Handler.generate_image pipe job) ->
        get_result_loop env (S fuel) self job_id wait max_wait start_time w
          = Some (Return (Some (PILImage buffered)),
                  after_http env (status_request self job_id) w)).
Proof.
  intros job Hp Hh Hw Hpipe Hid. split.
  - intros r Hr Hc Hj Hne.
    exact (generate_sync_reads_handler_image env self prompt height width steps seed
             timeout w r pipe buffered Hr Hc Hj Hp Hh Hw Hpipe Hne Hid).
  - intros m Hans Hs Ho.
    pose proof (HandlerFacts.generate_image_checked pipe job Hp Hh Hw) as Hgen.
    cbn [Handler.in_prompt Handler.in_height Handler.in_width
         Handler.in_num_inference_steps Handler.in_seed job default from_option id] in Hgen.
    rewrite Hpipe in Hgen. rewrite Hgen in Ho.
    cbn [get_result_loop].
    rewrite (iteration_completed env self job_id wait max_wait start_time w m _
               (Base64.b64encode buffered) buffered Hans Hs Ho);
      [reflexivity| | |apply Base64Facts.b64decode_encoded|exact Hid].
    + rewrite !lookup_insert_ne by discriminate. apply lookup_empty.
    + apply lookup_insert_eq.
Qed.

Lemma client_reads_back_handler_image_witness :
  let payload := Handler.generate_image Examples2.pipe_png
                   (Handler.mk_job_input (Some "sunset") (Some 1024%Z) (Some 768%Z)
                      (Some 9%Z) (Some 42%Z)) in
  fst (generate_sync (Examples.always (Examples2.runsync_answer payload))
         Examples.client0 "sunset" 1024 768 9 (Some 42%Z) 120 Examples.world0)
    = Return (PILImage Examples.png_signature)
  /\ get_result_loop (Examples.always (Examples2.completed_answer payload))
       1 Examples.client0 "job-1" true 120 0 Examples.world0
     = Some (Return (Some (PILImage Examples.png_signature)),
             after_http (Examples.always (Examples2.completed_answer payload))
               (status_request Examples.client0 "job-1") Examples.world0).
Proof.
  cbv zeta. split.
  - pose proof (client_reads_back_handler_image
                  (Examples.always
                     (Examples2.runsync_answer
                        (Handler.generate_image Examples2.pipe_png
                           (Handler.mk_job_input (Some "sunset") (Some 1024%Z) (Some 768%Z)
                              (Some 9%Z) (Some 42%Z)))))
                  Examples.client0 "sunset" 1024 768 9 (Some 42%Z) 120 "job-1" true 120 0 0
                  Examples.world0 Examples2.pipe_png Examples.png_signature) as H.
    cbv zeta in H.
    destruct H as [H _]; [discriminate | reflexivity | reflexivity | reflexivity | reflexivity |].
    eapply H; [reflexivity | reflexivity | reflexivity | discriminate].
  - pose proof (client_reads_back_handler_image
                  (Examples.always
                     (Examples2.completed_answer
                        (Handler.generate_image Examples2.pipe_png
                           (Handler.mk_job_input (Some "sunset") (Some 1024%Z) (Some 768%Z)
                              (Some 9%Z) (Some 42%Z)))))
                  Examples.client0 "sunset" 1024 768 9 (Some 42%Z) 120 "job-1" true 120 0 0
                  Examples.world0 Examples2.pipe_png Examples.png_signature) as H.
    cbv zeta in H.
    destruct H as [_ H]; [discriminate | reflexivity | reflexivity | reflexivity | reflexivity |].
    eapply H; [eexists; repeat split; reflexivity | reflexivity | reflexivity].
Defined.

(* ===================================================================== *)
(** ** Properties of the local server                                     *)
(* ===================================================================== *)

Module LocalServerFacts.
Import Py PyOps LocalServer.

Lemma truthy_int (z : Z) : truthy (JInt z) = negb (z =? 0)%Z.
Proof. destruct z; reflexivity. Qed.

(** [seed or 'random']. *)
Lemma seed_or_random (seed : option Z) :
  or_else (of_optional_int seed) (JStr "random") =
    match seed with
    | Some z => if (z =? 0)%Z then JStr "random" else JInt z
    | None => JStr "random"
    end.
Proof.
  destruct seed as [z|]; [|reflexivity].
  unfold or_else, of_optional_int. rewrite truthy_int. now destruct (z =? 0)%Z.
Qed.

End LocalServerFacts.

(** X17. Every failure of the two endpoints of the local server leaves as
    an [HTTPException] with status 500. That holds for the dimension check
    too: the [HTTPException] with status 400 it raises is raised inside the
    [try] block, caught by [except Exception], and sent as a 500 whose
    detail is the text of the 400. *)
Theorem local_server_failures_are_500
    (pipe : string -> Z -> Z -> Z -> option Z -> (string * string) + list byte)
    (str_HTTPException : Z -> string -> string)
    (request : LocalServer.GenerationRequest) :
  (forall e, LocalServer.generate_image pipe str_HTTPException request = inl e ->
     exists detail, e = LocalServer.HTTPException 500 detail)
  /\ (forall e, LocalServer.generate_image_url pipe str_HTTPException request = inl e ->
        exists detail, e = LocalServer.HTTPException 500 detail)
  /\ ((LocalServer.height request mod 8 <> 0)%Z \/ (LocalServer.width request mod 8 <> 0)%Z ->
      let e := LocalServer.HTTPException 500
                 (str_HTTPException 400%Z "Height and width must be multiples of 8") in
      LocalServer.generate_image pipe str_HTTPException request = inl e
      /\ LocalServer.generate_image_url pipe str_HTTPException request = inl e).
Proof.
  split; [|split].
  - intros e. unfold LocalServer.generate_image.
    destruct (LocalServer.generate_image_try pipe request); [|discriminate].
    intros [= <-]. eauto.
  - intros e. unfold LocalServer.generate_image_url.
    destruct (LocalServer.generate_image_url_try pipe request); [|discriminate].
    intros [= <-]. eauto.
  - intros Hdim. cbv zeta.
    assert (negb (LocalServer.height request mod 8 =? 0)%Z
            || negb (LocalServer.width request mod 8 =? 0)%Z = true) as Hbad.
    { apply orb_true_iff. destruct Hdim as [H|H]; [left|right];
        now apply negb_true_iff, Z.eqb_neq. }
    unfold LocalServer.generate_image, LocalServer.generate_image_url,
      LocalServer.generate_image_try, LocalServer.generate_image_url_try.
    rewrite Hbad. split; reflexivity.
Qed.

Lemma local_server_failures_are_500_witness :
  let request := LocalServer.mk_GenerationRequest "sunset" 1023 1024 9 None in
  let e := LocalServer.HTTPException 500 "400: Height and width must be multiples of 8" in
  LocalServer.generate_image Examples2.pipe_png Examples2.str_status_detail request = inl e
  /\ LocalServer.generate_image_url Examples2.pipe_png Examples2.str_status_detail request
     = inl e.
Proof.
  cbv zeta.
  destruct (local_server_failures_are_500 Examples2.pipe_png Examples2.str_status_detail
              (LocalServer.mk_GenerationRequest "sunset" 1023 1024 9 None)) as (_ & _ & H).
  apply H. left. vm_compute. discriminate.
Defined.

(** X18. [POST /generate] returns a response in one case only: the height
    and the width of the request are multiples of 8 and the model call
    succeeds. The prompt is not checked: an empty one goes to the model
    like any other. The response then echoes the prompt, the seed, the
    height and the width of the request, its format is ["base64"], and its
    image is a string that base64-decodes to the very bytes the model call
    left in [buffered]. *)
Theorem generate_returns_iff
    (pipe : string -> Z -> Z -> Z -> option Z -> (string * string) + list byte)
    (str_HTTPException : Z -> string -> string)
    (request : LocalServer.GenerationRequest) (response : LocalServer.GenerationResponse) :
  LocalServer.generate_image pipe str_HTTPException request = inr response
  <-> ((LocalServer.height request mod 8 = 0)%Z
       /\ (LocalServer.width request mod 8 = 0)%Z
       /\ exists buffered,
            pipe (LocalServer.prompt request) (LocalServer.height request)
              (LocalServer.width request) (LocalServer.num_inference_steps request)
              (LocalServer.seed request) = inr buffered
            /\ response
               = LocalServer.mk_GenerationResponse (Base64.b64encode buffered) "base64"
                   (LocalServer.prompt request) (LocalServer.seed request)
                   (LocalServer.height request) (LocalServer.width request)
            /\ Base64.b64decode (LocalServer.image response) = inr buffered).
Proof.
  unfold LocalServer.generate_image, LocalServer.generate_image_try.
  destruct (LocalServer.height request mod 8 =? 0)%Z eqn:Hh; cbn [negb orb].
  2:{ apply Z.eqb_neq in Hh. split; [discriminate|]. now intros (Hh' & _). }
  destruct (LocalServer.width request mod 8 =? 0)%Z eqn:Hw; cbn [negb orb].
  2:{ apply Z.eqb_neq in Hw. split; [discriminate|]. now intros (_ & Hw' & _). }
  apply Z.eqb_eq in Hh, Hw.
  destruct (pipe _ _ _ _ _) as [[text traceback]|buffered].
  - split; [discriminate|]. intros (_ & _ & buffered & Hpipe & _). discriminate Hpipe.
  - split.
    + intros [= <-]. repeat split; try assumption.
      exists buffered. split; [reflexivity|]. split; [reflexivity|].
      apply Base64Facts.b64decode_encoded.
    + intros (_ & _ & buffered' & [= <-] & -> & _). reflexivity.
Qed.

(** X19. The file name that [/generate/url] proposes is
    [generated_<seed>.png] for a seed other than 0, and
    [generated_random.png] both for an absent seed and for the seed 0. *)
Theorem download_file_name
    (pipe : string -> Z -> Z -> Z -> option Z -> (string * string) + list byte)
    (str_HTTPException : Z -> string -> string)
    (request : LocalServer.GenerationRequest) (file : LocalServer.FileResponse) :
  LocalServer.generate_image_url pipe str_HTTPException request = inr file ->
  LocalServer.response_headers file !! "Content-Disposition"
    = Some [Lit "attachment; filename=generated_";
            Fmt (match LocalServer.seed request with
                 | Some z => if (z =? 0)%Z then JStr "random" else JInt z
                 | None => JStr "random"
                 end);
            Lit ".png"].
Proof.
  unfold LocalServer.generate_image_url, LocalServer.generate_image_url_try.
  destruct (negb (LocalServer.height request mod 8 =? 0)%Z
            || negb (LocalServer.width request mod 8 =? 0)%Z); [discriminate|].
  destruct (pipe _ _ _ _ _) as [[text traceback]|buffered]; [discriminate|].
  intros [= <-]. cbn [LocalServer.response_headers].
  rewrite lookup_singleton_eq. now rewrite LocalServerFacts.seed_or_random.
Qed.

Lemma download_file_name_witness :
  LocalServer.response_headers
    (LocalServer.mk_FileResponse Examples.png_signature "image/png"
       {[ "Content-Disposition" :=
            [Lit "attachment; filename=generated_"; Fmt (JStr "random"); Lit ".png"] ]})
    !! "Content-Disposition"
  = Some [Lit "attachment; filename=generated_"; Fmt (JStr "random"); Lit ".png"].
Proof.
  apply (download_file_name Examples2.pipe_png Examples2.str_status_detail
           (LocalServer.mk_GenerationRequest "sunset" 1024 1024 9 (Some 0%Z))).
  reflexivity.
Defined.

(** X20. The local server and the handler on the same request, each with
    a model of its own.

    - With a non-empty prompt they apply the same dimension check: the
      handler answers with the error payload of that check exactly when
      the [try] block of [/generate] raises its 400, whatever the two
      models do.
    - They send the same JSON for the same picture: when the prompt is not
      empty, the dimensions are multiples of 8 and the two models draw the
      same bytes, the JSON of the response of [/generate] is the payload
      of [generate_image].
    - They part on the empty prompt: the handler refuses it without its
      model, and the local server passes it to its model and answers with
      what that draws. *)
Theorem local_server_and_handler
    (pipe_server pipe_handler :
       string -> Z -> Z -> Z -> option Z -> (string * string) + list byte)
    (str_HTTPException : Z -> string -> string)
    (request : LocalServer.GenerationRequest) :
  let job := Handler.mk_job_input (Some (LocalServer.prompt request))
               (Some (LocalServer.height request)) (Some (LocalServer.width request))
               (Some (LocalServer.num_inference_steps request)) (LocalServer.seed request) in
  (LocalServer.prompt request <> "" ->
   (Handler.generate_image pipe_handler job
      = JObj {[ "error" := JStr "Height and width must be multiples of 8" ]}
    <-> LocalServer.generate_image_try pipe_server request
          = inl (LocalServer.HTTPException 400 "Height and width must be multiples of 8")))
  /\ (forall buffered,
        LocalServer.prompt request <> "" ->
        (LocalServer.height request mod 8 = 0)%Z ->
        (LocalServer.width request mod 8 = 0)%Z ->
        pipe_server (LocalServer.prompt request) (LocalServer.height request)
          (LocalServer.width request) (LocalServer.num_inference_steps request)
          (LocalServer.seed request) = inr buffered ->
        pipe_handler (LocalServer.prompt request) (LocalServer.height request)
          (LocalServer.width request) (LocalServer.num_inference_steps request)
          (LocalServer.seed request) = inr buffered ->
        exists response,
          LocalServer.generate_image pipe_server str_HTTPException request = inr response
          /\ Handler.generate_image pipe_handler job = LocalServer.to_json response)
  /\ (LocalServer.prompt request = "" ->
      Handler.generate_image pipe_handler job = JObj {[ "error" := JStr "No prompt provided" ]}
      /\ forall buffered,
           (LocalServer.height request mod 8 = 0)%Z ->
           (LocalServer.width request mod 8 = 0)%Z ->
           pipe_server "" (LocalServer.height request) (LocalServer.width request)
             (LocalServer.num_inference_steps request) (LocalServer.seed request)
             = inr buffered ->
           LocalServer.generate_image pipe_server str_HTTPException request
             = inr (LocalServer.mk_GenerationResponse (Base64.b64encode buffered) "base64" ""
                      (LocalServer.seed request) (LocalServer.height request)
                      (LocalServer.width request))).
Proof.
  cbv zeta. destruct request as [prompt height width steps seed].
  cbn [LocalServer.prompt LocalServer.height LocalServer.width
       LocalServer.num_inference_steps LocalServer.seed].
  split; [|split].
  - intros Hp.
    unfold LocalServer.generate_image_try, Handler.generate_image.
    cbn [LocalServer.prompt LocalServer.height LocalServer.width
         LocalServer.num_inference_steps LocalServer.seed
         Handler.in_prompt Handler.in_height Handler.in_width
         Handler.in_num_inference_steps Handler.in_seed default from_option id].
    apply HandlerFacts.truthy_str in Hp. rewrite Hp. cbn [negb].
    destruct (negb (height mod 8 =? 0)%Z || negb (width mod 8 =? 0)%Z); [tauto|].
    split.
    + destruct (pipe_handler prompt height width steps seed) as [[text traceback]|buffered];
        discriminate.
    + destruct (pipe_server prompt height width steps seed) as [[text traceback]|buffered];
        discriminate.
  - intros buffered Hp Hh Hw Hserver Hhandler.
    unfold LocalServer.generate_image, LocalServer.generate_image_try.
    cbn [LocalServer.prompt LocalServer.height LocalServer.width
         LocalServer.num_inference_steps LocalServer.seed].
    rewrite Hh, Hw, Hserver. cbn [Z.eqb negb orb].
    eexists. split; [reflexivity|].
    rewrite (HandlerFacts.generate_image_checked pipe_handler
               (Handler.mk_job_input (Some prompt) (Some height) (Some width) (Some steps) seed)
               Hp Hh Hw).
    cbn [Handler.in_prompt Handler.in_height Handler.in_width
         Handler.in_num_inference_steps Handler.in_seed default from_option id].
    rewrite Hhandler. unfold LocalServer.to_json. cbn. now destruct seed.
  - intros ->. split; [reflexivity|].
    intros buffered Hh Hw Hpipe.
    unfold LocalServer.generate_image, LocalServer.generate_image_try.
    cbn [LocalServer.prompt LocalServer.height LocalServer.width
         LocalServer.num_inference_steps LocalServer.seed].
    now rewrite Hh, Hw, Hpipe.
Qed.

Lemma local_server_and_handler_witness :
  LocalServer.generate_image_try Examples2.pipe_png
    (LocalServer.mk_GenerationRequest "sunset" 1023 768 9 (Some 42%Z))
    = inl (LocalServer.HTTPException 400 "Height and width must be multiples of 8")
  /\ (exists response,
        LocalServer.generate_image Examples2.pipe_png Examples2.str_status_detail
          (LocalServer.mk_GenerationRequest "sunset" 1024 768 9 (Some 42%Z)) = inr response
        /\ Handler.generate_image
             (fun prompt height width steps seed =>
                if String.eqb prompt "sunset" then inr Examples.png_signature
                else Examples2.pipe_fails prompt height width steps seed)
             (Handler.mk_job_input (Some "sunset") (Some 1024%Z) (Some 768%Z) (Some 9%Z)
                (Some 42%Z))
           = LocalServer.to_json response)
  /\ LocalServer.generate_image Examples2.pipe_png Examples2.str_status_detail
       (LocalServer.mk_GenerationRequest "" 1024 768 9 None)
     = inr (LocalServer.mk_GenerationResponse (Base64.b64encode Examples.png_signature)
              "base64" "" None 1024 768).
Proof.
  split; [|split].
  - pose proof (local_server_and_handler Examples2.pipe_png Examples2.pipe_fails
                  Examples2.str_status_detail
                  (LocalServer.mk_GenerationRequest "sunset" 1023 768 9 (Some 42%Z))) as H.
    cbv zeta in H. destruct H as [H _]. apply H; [discriminate|]. reflexivity.
  - pose proof (local_server_and_handler Examples2.pipe_png
                  (fun prompt height width steps seed =>
                     if String.eqb prompt "sunset" then inr Examples.png_signature
                     else Examples2.pipe_fails prompt height width steps seed)
                  Examples2.str_status_detail
                  (LocalServer.mk_GenerationRequest "sunset" 1024 768 9 (Some 42%Z))) as H.
    cbv zeta in H. destruct H as (_ & H & _).
    apply (H Examples.png_signature); [discriminate | reflexivity..].
  - pose proof (local_server_and_handler Examples2.pipe_png Examples2.pipe_fails
                  Examples2.str_status_detail
                  (LocalServer.mk_GenerationRequest "" 1024 768 9 None)) as H.
    cbv zeta in H. destruct H as (_ & _ & H). destruct (H eq_refl) as [_ H'].
    apply (H' Examples.png_signature); reflexivity.
Defined.
